(** * Document validation pipeline: content check, authenticity check, decision

    A shallow embedding of the three Python modules of the repository

    - [content_validation.py]   (Hijri date normalisation, input resolution,
                                 LLM verdict parsing),
    - [authenticity_validation_old.py] (PDF inspection and validity rule),
    - [AI_supervisor.py]        (the two stage wrappers, the three workflow
                                 nodes and the linear workflow),

    together with the properties of the specification that concern them.

    Python values are embedded as a small tagged union, Python [str] as the
    list of its Unicode code points, exceptions as an error monad, and every
    external collaborator (file system, OCR extractor, LLM endpoint, JSON
    parser, pypdfium2, hijri_converter, the Unicode database) as a field of
    an explicit [World] record that each function receives. *)

From Stdlib Require Import List NArith ZArith Bool Lia Permutation Sorted.
From Stdlib.Strings Require Byte.
Import ListNotations.

Set Warnings "-register-all".

(* ===================================================================== *)
(** ** Python strings                                                     *)
(* ===================================================================== *)

Module Str.

(** A Python [str] is a sequence of Unicode code points. *)
Definition char := N.
Definition str := list char.

(** String literals of the sources are written in UTF-8 and read as
    code points. *)
Inductive literal :=
| lit_nil
| lit_cons (c : char) (l : literal).

Fixpoint utf8_decode (bs : list N) : literal :=
  match bs with
  | [] => lit_nil
  | b0 :: r0 =>
      if (b0 <? 128)%N then lit_cons b0 (utf8_decode r0)
      else if (b0 <? 224)%N then
        match r0 with
        | b1 :: r1 =>
            lit_cons ((b0 mod 32) * 64 + b1 mod 64)%N (utf8_decode r1)
        | _ => lit_nil
        end
      else if (b0 <? 240)%N then
        match r0 with
        | b1 :: b2 :: r2 =>
            lit_cons ((b0 mod 16) * 4096 + (b1 mod 64) * 64 + b2 mod 64)%N
                     (utf8_decode r2)
        | _ => lit_nil
        end
      else
        match r0 with
        | b1 :: b2 :: b3 :: r3 =>
            lit_cons ((b0 mod 8) * 262144 + (b1 mod 64) * 4096
                      + (b2 mod 64) * 64 + b3 mod 64)%N
                     (utf8_decode r3)
        | _ => lit_nil
        end
  end.

Definition parse (bs : list Byte.byte) : literal :=
  utf8_decode (List.map (fun b => N.of_nat (Byte.to_nat b)) bs).

Definition print (l : literal) : option (list Byte.byte) := None.

(** [a == b] *)
Fixpoint eqb (a b : str) : bool :=
  match a, b with
  | [], [] => true
  | x :: a', y :: b' => (x =? y)%N && eqb a' b'
  | _, _ => false
  end.

(** [a.startswith(b)] *)
Fixpoint startswith (a b : str) : bool :=
  match b, a with
  | [], _ => true
  | _ :: _, [] => false
  | y :: b', x :: a' => (x =? y)%N && startswith a' b'
  end.

(** [a.endswith(b)] *)
Definition endswith (a b : str) : bool := startswith (rev a) (rev b).

(** [sep.join(parts)] *)
Fixpoint join (sep : str) (parts : list str) : str :=
  match parts with
  | [] => []
  | [p] => p
  | p :: rest => p ++ sep ++ join sep rest
  end.

(** [a <= b] on [str]: lexicographic on code points. *)
Fixpoint leb (a b : str) : bool :=
  match a, b with
  | [], _ => true
  | _ :: _, [] => false
  | x :: a', y :: b' =>
      if (x <? y)%N then true
      else if (y <? x)%N then false
      else leb a' b'
  end.

Definition le (a b : str) : Prop := leb a b = true.

(** [s.replace(old, new)] for a non-empty [old]: occurrences are found
    left to right and do not overlap.  [skip] counts the characters of an
    occurrence that are still to be dropped. *)
Fixpoint replace_from (skip : nat) (old new s : str) : str :=
  match s with
  | [] => []
  | c :: s' =>
      match skip with
      | S k => replace_from k old new s'
      | O =>
          if startswith s old
          then new ++ replace_from (List.length old - 1) old new s'
          else c :: replace_from 0 old new s'
      end
  end.

(** With an empty [old], Python inserts [new] before every character and
    at the end. *)
Fixpoint intersperse (new s : str) : str :=
  match s with
  | [] => new
  | c :: s' => new ++ c :: intersperse new s'
  end.

Definition replace (s old new : str) : str :=
  match old with
  | [] => intersperse new s
  | _ :: _ => replace_from 0 old new s
  end.

(** ASCII part of [str.lower] and [str.upper]; the sources apply them
    only where the outcome is compared with, or computed from, an ASCII
    literal. *)
Definition lower_char (c : char) : char :=
  if ((65 <=? c) && (c <=? 90))%N then (c + 32)%N else c.
Definition upper_char (c : char) : char :=
  if ((97 <=? c) && (c <=? 122))%N then (c - 32)%N else c.
Definition lower (s : str) : str := List.map lower_char s.
Definition upper (s : str) : str := List.map upper_char s.

End Str.

Abbreviation str := Str.str.

Declare Scope str_scope.
Delimit Scope str_scope with str.
#[warnings="-via-type-mismatch,-via-type-remapping"]
String Notation Str.str Str.parse Str.print
  (via Str.literal mapping [[nil] => Str.lit_nil, [cons] => Str.lit_cons])
  : str_scope.
Open Scope str_scope.

(* ===================================================================== *)
(** ** Python values, exceptions                                          *)
(* ===================================================================== *)

Module Py.

(** An exception of class [Exception]; [msg] is what [str(e)] returns. *)
Inductive exn := Exception (msg : str).

Definition exn_str (e : exn) : str := let 'Exception m := e in m.

(** A computation either returns a value or raises. *)
Inductive result (A : Type) :=
| Ok (a : A)
| Raise (e : exn).
Arguments Ok {A} a.
Arguments Raise {A} e.

Definition bind {A B} (c : result A) (f : A -> result B) : result B :=
  match c with
  | Ok a => f a
  | Raise e => Raise e
  end.

(** [try: c  except Exception as e: h e] *)
Definition try_except {A} (c : result A) (h : exn -> result A) : result A :=
  match c with
  | Ok a => Ok a
  | Raise e => h e
  end.

Inductive pyfloat :=
| FNan
| FInf (negative : bool)
| FFinite (mantissa exponent : Z).

Inductive value :=
| VNone
| VBool (b : bool)
| VInt (z : Z)
| VFloat (f : pyfloat)
| VStr (s : str)
| VList (l : list value)
| VDict (d : list (str * value)).

(** A [dict] keeps its items in insertion order. *)
Definition dict := list (str * value).

(** Truth value of an object, as tested by [and], [not] and [if]. *)
Definition truthy (v : value) : bool :=
  match v with
  | VNone => false
  | VBool b => b
  | VInt z => negb (z =? 0)%Z
  | VFloat (FFinite m _) => negb (m =? 0)%Z
  | VFloat _ => true
  | VStr s => match s with [] => false | _ => true end
  | VList l => match l with [] => false | _ => true end
  | VDict d => match d with [] => false | _ => true end
  end.

Fixpoint lookup (d : dict) (k : str) : option value :=
  match d with
  | [] => None
  | (k', v) :: d' => if Str.eqb k' k then Some v else lookup d' k
  end.

(** [d.get(k, default)] and [d.get(k)] on a dict. *)
Definition get_or (d : dict) (k : str) (default : value) : value :=
  match lookup d k with
  | Some v => v
  | None => default
  end.

Definition get (d : dict) (k : str) : value := get_or d k VNone.

(** [d[k] = v] *)
Fixpoint setitem (d : dict) (k : str) (v : value) : dict :=
  match d with
  | [] => [(k, v)]
  | (k', v') :: d' =>
      if Str.eqb k' k then (k', v) :: d' else (k', v') :: setitem d' k v
  end.

Definition type_name (v : value) : str :=
  match v with
  | VNone => "NoneType"
  | VBool _ => "bool"
  | VInt _ => "int"
  | VFloat _ => "float"
  | VStr _ => "str"
  | VList _ => "list"
  | VDict _ => "dict"
  end.

Definition AttributeError (v : value) (attr : str) : exn :=
  Exception ("'" ++ type_name v ++ "' object has no attribute '"
             ++ attr ++ "'").

(** [v.get(k, default)] on an arbitrary object: only a dict has [get]. *)
Definition call_get (v : value) (k : str) (default : value) : result value :=
  match v with
  | VDict d => Ok (get_or d k default)
  | _ => Raise (AttributeError v "get")
  end.

(** [v == "literal"] *)
Definition eq_str (v : value) (s : str) : bool :=
  match v with
  | VStr s' => Str.eqb s' s
  | _ => false
  end.

End Py.

Export Py.
Notation "x <- c ;; k" := (Py.bind c (fun x => k))
  (at level 61, c at next level, right associativity).

(* ===================================================================== *)
(** ** The fragment of [re] used by the sources                           *)
(* ===================================================================== *)

Module Re.

Inductive regex :=
| Class (p : Str.char -> bool)          (* a character class          *)
| Literal (s : str)                     (* a literal string           *)
| Seq (r1 r2 : regex)                   (* r1 r2                      *)
| Alt (r1 r2 : regex)                   (* r1|r2                      *)
| Optional (r : regex)                  (* r?       greedy            *)
| Repeat (r : regex) (lo hi : nat)      (* r{lo,hi} greedy            *)
| StarClass (p : Str.char -> bool)      (* [class]* greedy            *)
| Group (i : nat) (r : regex).          (* the i-th capturing group   *)

(** Captured groups; a group that took no part in the match reads as the
    empty string, as in the tuples of [re.findall]. *)
Definition groups := list (nat * str).

Fixpoint group (g : groups) (i : nat) : str :=
  match g with
  | [] => []
  | (j, s) :: g' => if Nat.eqb j i then s else group g' i
  end.

(** Backtracking matchers in continuation-passing style: a matcher
    consumes a prefix of the input and hands the rest and the groups to
    its continuation; when the continuation fails, the next alternative
    is tried, in the priority order of Python's engine (greedy first,
    left alternative first). *)
Definition outcome := option (groups * str).
Definition cont := str -> groups -> outcome.
Definition matcher := str -> groups -> cont -> outcome.

Definition or_else (a : outcome) (b : unit -> outcome) : outcome :=
  match a with
  | Some m => Some m
  | None => b tt
  end.

Definition m_class (p : Str.char -> bool) : matcher :=
  fun s g k =>
    match s with
    | c :: s' => if p c then k s' g else None
    | [] => None
    end.

(** [body{lo,hi}]: [left] repetitions may still be taken, [done] were. *)
Fixpoint m_repeat (body : matcher) (lo left done : nat) : matcher :=
  fun s g k =>
    let stop := fun _ : unit => if Nat.leb lo done then k s g else None in
    match left with
    | O => stop tt
    | S left' =>
        or_else (body s g (fun s1 g1 => m_repeat body lo left' (S done) s1 g1 k))
                stop
    end.

Fixpoint m_star_class (p : Str.char -> bool) (s : str) (g : groups)
         (k : cont) : outcome :=
  match s with
  | c :: s' =>
      if p c
      then or_else (m_star_class p s' g k) (fun _ => k s g)
      else k s g
  | [] => k s g
  end.

Fixpoint exec (r : regex) : matcher :=
  match r with
  | Class p => m_class p
  | Literal l =>
      fun s g k =>
        if Str.startswith s l then k (skipn (List.length l) s) g else None
  | Seq r1 r2 => fun s g k => exec r1 s g (fun s1 g1 => exec r2 s1 g1 k)
  | Alt r1 r2 => fun s g k => or_else (exec r1 s g k) (fun _ => exec r2 s g k)
  | Optional r1 => fun s g k => or_else (exec r1 s g k) (fun _ => k s g)
  | Repeat r1 lo hi => m_repeat (exec r1) lo hi 0
  | StarClass p => m_star_class p
  | Group i r1 =>
      fun s g k =>
        exec r1 s g
             (fun s1 g1 =>
                k s1 ((i, firstn (List.length s - List.length s1) s) :: g1))
  end.

(** [pattern.match(s)] at the head of [s]. *)
Definition match_at (r : regex) (s : str) : option (groups * str) :=
  exec r s [] (fun s' g => Some (g, s')).

(** [re.findall]: leftmost matches, scanned left to right, not
    overlapping.  [skip] counts the characters of the last match that are
    still to be passed over. *)
Fixpoint findall_from (skip : nat) (r : regex) (s : str) : list groups :=
  match s with
  | [] =>
      match skip, match_at r [] with
      | O, Some (g, _) => [g]
      | _, _ => []
      end
  | _ :: s' =>
      match skip with
      | S n => findall_from n r s'
      | O =>
          match match_at r s with
          | Some (g, rest) =>
              g :: findall_from (List.length s - List.length rest - 1) r s'
          | None => findall_from 0 r s'
          end
      end
  end.

Definition findall (r : regex) (s : str) : list groups := findall_from 0 r s.

End Re.

(* ===================================================================== *)
(** ** External collaborators                                             *)
(* ===================================================================== *)

(** What [pypdfium2] reports about an opened document.  Each call may
    raise. *)
Record PdfDocument := {
  get_metadata : result dict;
  (** for each page index, the outcome of [pdf[i].has_signature()] *)
  page_has_signature : list (result bool);
  is_encrypted : result bool;
  close : result unit
}.

Record World := {
  (** Unicode database of the interpreter: [\d], [int], [\s] and
      [str.strip] *)
  is_decimal : Str.char -> bool;
  decimal_value : Str.char -> Z;
  is_whitespace : Str.char -> bool;
  (** built-in [str()] of an object that is not a [str] *)
  repr : value -> str;
  (** [convert.Hijri(y, m, d).to_gregorian()]: Gregorian (year, month,
      day), or the library's exception for an invalid or out-of-range
      date *)
  hijri_to_gregorian : Z -> Z -> Z -> result (Z * Z * Z);
  (** file system *)
  path_exists : str -> result bool;
  path_is_dir : str -> bool;
  os_listdir : str -> result (list str);
  read_text : str -> result str;
  (** OCR pipeline: the markdown of each page of the input *)
  ocr_pages : str -> result (list str);
  (** chat-completion endpoint: credential, prompt *)
  chat_completion : str -> str -> result str;
  json_loads : str -> result value;
  (** [pdfium.PdfDocument(path)] *)
  pdfium_open : str -> result PdfDocument
}.

(* ===================================================================== *)
(** ** content_validation.py                                              *)
(* ===================================================================== *)

Module ContentValidation.
Section WithWorld.

Variable W : World.

Definition nl : str := [10%N].
Definition dq : str := [34%N].

(** [LLMConnector(api_key).ask(prompt)] *)
Definition ask (api_key prompt : str) : result str :=
  chat_completion W api_key prompt.

Definition read_markdown_file (file_path : str) : result str :=
  read_text W file_path.

(** [int(s)] on the digit strings the date pattern captures. *)
Definition int (s : str) : result Z :=
  match s with
  | [] => Raise (Exception "invalid literal for int() with base 10: ''")
  | _ :: _ =>
      if forallb (is_decimal W) s
      then Ok (fold_left (fun acc c => 10 * acc + decimal_value W c) s 0)%Z
      else Raise (Exception ("invalid literal for int() with base 10: '"
                             ++ s ++ "'"))
  end.

Definition digit : Re.regex := Re.Class (is_decimal W).
Definition slash_or_dash : Re.regex :=
  Re.Class (fun c => (c =? 47)%N || (c =? 45)%N).

(** [(\d{1,2})[/-](\d{1,2})[/-](\d{2,4})\s*(هجري|هـ)?] *)
Definition hijri_date_pattern : Re.regex :=
  Re.Seq (Re.Group 1 (Re.Repeat digit 1 2))
 (Re.Seq slash_or_dash
 (Re.Seq (Re.Group 2 (Re.Repeat digit 1 2))
 (Re.Seq slash_or_dash
 (Re.Seq (Re.Group 3 (Re.Repeat digit 2 4))
 (Re.Seq (Re.StarClass (is_whitespace W))
         (Re.Optional
            (Re.Group 4 (Re.Alt (Re.Literal "هجري")
                                (Re.Literal "هـ"))))))))).

Definition digit_char (n : Z) : Str.char := Z.to_N (48 + n mod 10).

(** [date.strftime('%Y-%m-%d')]; a [date] has a year of 1 to 9999. *)
Definition strftime_ymd (date : Z * Z * Z) : str :=
  let '(y, m, d) := date in
  [digit_char (y / 1000); digit_char (y / 100); digit_char (y / 10);
   digit_char y; 45%N;
   digit_char (m / 10); digit_char m; 45%N;
   digit_char (d / 10); digit_char d].

(** The conversion attempted for one match:
    [convert.Hijri(int(year), int(month), int(day)).to_gregorian()]. *)
Definition gregorian_of_match (m : Re.groups) : result (Z * Z * Z) :=
  let day := Re.group m 1 in
  let month := Re.group m 2 in
  let year := Re.group m 3 in
  y <- int year ;;
  mo <- int month ;;
  d <- int day ;;
  hijri_to_gregorian W y mo d.

(** One iteration of the loop over the matches: the body of the [try],
    with [except Exception: continue]. *)
Definition convert_match (text : str) (m : Re.groups) : str :=
  let day := Re.group m 1 in
  let month := Re.group m 2 in
  let year := Re.group m 3 in
  match gregorian_of_match m with
  | Ok gregorian_date =>
      let gregorian_str := strftime_ymd gregorian_date in
      let hijri_str := day ++ "/" ++ month ++ "/" ++ year in
      Str.replace text hijri_str gregorian_str
  | Raise _ => text
  end.

Definition convert_hijri_to_gregorian (text : str) : str :=
  let matches := Re.findall hijri_date_pattern text in
  fold_left convert_match matches text.

(** The OCR models are external: [ocr_pages] stands for the markdown
    that [ocr_to_markdown] yields for each page image (or the exception
    of the pipeline, the [ImportError] of a missing Surya included).  The
    per-page files written to [output_dir] are not modelled. *)
Definition create_markdown_from_input (input_path : str) : result str :=
  pages <- ocr_pages W input_path ;;
  Ok (fold_left
        (fun all_markdown markdown_text =>
           all_markdown ++ convert_hijri_to_gregorian markdown_text ++ nl)
        pages []).

Definition prompt_head : str :=
  Str.join nl
    [ "You are an expert document verification system for injury incident reports in Saudi Arabia.";
    "The document may contain both English and Arabic text.";
    [];
    "Your task: Validate whether this text is valid.";
    [];
    "Check the following criteria:";
    "1. Presence of any of the sources " ++ dq ++ "Police" ++ dq ++
       ", " ++ dq ++ "Fire" ++ dq ++ ", " ++ dq ++
       "Red Crescent" ++ dq ++ " or " ++ dq ++ "Najm" ++ dq ++
       ". The names can be in Arabic as well.";
    "2. Presence of document type such as " ++ dq ++
       "Medical Report" ++ dq ++ ", " ++ dq ++ "Referral" ++ dq ++
       ", " ++ dq ++ "Electronic Patient Care Report (ePCR)" ++ dq ++
       " or " ++ dq ++ "Treatment Approval" ++ dq ++ ".";
    "3. Presence of date (Gregorian or Hijri, not future dated) in DD/MM/YYYY format.";
    "4. Presence of patient details (name, ID/passport, gender, DOB/age).";
    "5. Bilingual content (English + Arabic sections).";
    "6. Medical or humanitarian context (diagnosis, treatment, etc.).";
    "7. No obvious template text or paceholder content";
    [];
    "Respond strictly in this JSON format:";
    "{";
    "  " ++ dq ++ "status" ++ dq ++ ": " ++ dq ++
       "validated" ++ dq ++ " or " ++ dq ++ "not validated" ++ dq ++
       ",";
    "  " ++ dq ++ "reason" ++ dq ++ ": " ++ dq ++
       "Explain clearly why the document was marked valid or invalid" ++
       dq ++ ",";
    "  " ++ dq ++ "fields_detected" ++ dq ++ ": {";
    "      " ++ dq ++ "authority_name" ++ dq ++ ": " ++ dq ++
       "string or null" ++ dq ++ ",";
    "      " ++ dq ++ "reference_number" ++ dq ++ ": " ++ dq ++
       "string or null" ++ dq ++ ",";
    "      " ++ dq ++ "date" ++ dq ++ ": " ++ dq ++
       "string or null" ++ dq ++ ",";
    "      " ++ dq ++ "document_type" ++ dq ++ ": " ++ dq ++
       "string or null" ++ dq ++ ",";
    "      " ++ dq ++ "patient_name" ++ dq ++ ": " ++ dq ++
       "string or null" ++ dq ++ ",";
    "      " ++ dq ++ "diagnosis_or_procedure" ++ dq ++ ": " ++
       dq ++ "string or null" ++ dq ++ ",";
    "      " ++ dq ++ "signature_or_stamp" ++ dq ++ ": " ++ dq ++
       "string or null" ++ dq ++ ",";
    "      " ++ dq ++ "is_bilingual" ++ dq ++ ": true or false";
    "  },";
    "  " ++ dq ++ "completeness_score" ++ dq ++ ": 0.0,";
    "  " ++ dq ++ "authenticity_score" ++ dq ++ ": 0.0,";
    "  " ++ dq ++ "final_decision" ++ dq ++ ": " ++ dq ++
       "Valid" ++ dq ++ " or " ++ dq ++ "Invalid" ++ dq ++
       " or " ++ dq ++ "Needs Manual Review" ++ dq;
    "}";
    [];
    "Text to validate:";
    dq ++ dq ++ dq ].

Definition prompt_tail : str :=
  Str.join nl
    [ dq ++ dq ++ dq;
    [] ].

Definition lstrip (s : str) : str :=
  (fix go (s : str) :=
     match s with
     | c :: s' => if is_whitespace W c then go s' else s
     | [] => []
     end) s.

(** [s.strip()] *)
Definition strip (s : str) : str := rev (lstrip (rev (lstrip s))).

Definition fallback_verdict : value :=
  VDict [("status", VStr "not validated");
         ("final_decision", VStr "Invalid")].

Definition validate_document (api_key text : str) : result value :=
  let prompt := prompt_head ++ text ++ prompt_tail in
  completion <- ask api_key prompt ;;
  let response := strip completion in
  Py.try_except (json_loads W response) (fun _ => Ok fallback_verdict).

(** [Path(p).name]: the final component, trailing slashes dropped. *)
Definition path_name (p : str) : str :=
  let fix drop_slashes (r : str) :=
    match r with
    | c :: r' => if (c =? 47)%N then drop_slashes r' else r
    | [] => []
    end in
  let fix take_name (r : str) :=
    match r with
    | c :: r' => if (c =? 47)%N then [] else c :: take_name r'
    | [] => []
    end in
  rev (take_name (drop_slashes (rev p))).

(** [Path(p).suffix]: from the last dot of the name, unless that dot
    starts or ends the name. *)
Definition path_suffix (p : str) : str :=
  let fix ext (r : str) : option (str * str) :=
    match r with
    | c :: r' =>
        if (c =? 46)%N then Some ([], r')
        else match ext r' with
             | Some (e, stem) => Some (c :: e, stem)
             | None => None
             end
    | [] => None
    end in
  match ext (rev (path_name p)) with
  | Some (c :: e, _ :: _) => 46%N :: rev (c :: e)
  | _ => []
  end.

Definition is_md (name : str) : bool := Str.endswith name ".md".

(** [folder / name] *)
Definition joinpath (folder name : str) : str := folder ++ "/" ++ name.

(** [folder.glob("*.md")] on a POSIX file system: the children whose
    name ends in [.md], in the order the directory lists them. *)
Definition glob_md (folder : str) : result (list str) :=
  names <- os_listdir W folder ;;
  Ok (List.map (joinpath folder) (List.filter is_md names)).

(** [sorted(paths)]: stable, ascending. *)
Fixpoint insert_sorted (p : str) (l : list str) : list str :=
  match l with
  | [] => [p]
  | q :: l' => if Str.leb p q then p :: l else q :: insert_sorted p l'
  end.

Definition sorted (l : list str) : list str :=
  fold_right insert_sorted [] l.

Fixpoint read_all (files : list str) : result (list str) :=
  match files with
  | [] => Ok []
  | f :: rest =>
      t <- read_markdown_file f ;;
      ts <- read_all rest ;;
      Ok (t :: ts)
  end.

(** The input resolution of [validate_content]: either the combined text
    ([inr]) or the verdict returned at once when extraction fails
    ([inl]).  The temporary directory of the extraction branch is not
    modelled. *)
Definition combined_text (input_path : str) : result (value + str) :=
  has_md <-
    (if path_is_dir W input_path
     then names <- os_listdir W input_path ;; Ok (existsb is_md names)
     else Ok false) ;;
  if has_md then
    md_files <- glob_md input_path ;;
    texts <- read_all (sorted md_files) ;;
    Ok (inr (Str.join (nl ++ nl) texts))
  else if Str.eqb (Str.lower (path_suffix input_path)) ".md" then
    text <- read_markdown_file input_path ;;
    Ok (inr text)
  else
    match create_markdown_from_input input_path with
    | Ok text => Ok (inr text)
    | Raise e =>
        Ok (inl (VDict
                   [("status", VStr "error");
                    ("reason",
                     VStr ("Failed to create markdown from input: "
                           ++ exn_str e))]))
    end.

Definition validate_content (api_key input_path : str) : result value :=
  r <- combined_text input_path ;;
  match r with
  | inl verdict => Ok verdict
  | inr text =>
      validate_document api_key (convert_hijri_to_gregorian text)
  end.

End WithWorld.
End ContentValidation.

(* ===================================================================== *)
(** ** authenticity_validation_old.py                                     *)
(* ===================================================================== *)

Module AuthenticityValidation.
Section WithWorld.

Variable W : World.

(** The loop over the pages inside [try: ... except Exception: pass]:
    it stops at the first signed page, and an exception ends it with the
    flag still unset. *)
Fixpoint scan_signatures (pages : list (result bool)) : bool :=
  match pages with
  | [] => false
  | Ok true :: _ => true
  | Ok false :: rest => scan_signatures rest
  | Raise _ :: _ => false
  end.

(** The dict of both early exits: missing file, and caught exception. *)
Definition rejected (reason : str) : dict :=
  [("status", VStr "not validated");
   ("reason", VStr reason);
   ("metadata", VDict []);
   ("has_signature", VBool false);
   ("is_encrypted", VBool false)].

(** The body of the [try] once the document is open. *)
Definition inspect (pdf : PdfDocument) : result dict :=
  metadata <- get_metadata pdf ;;
  let has_signature := scan_signatures (page_has_signature pdf) in
  is_encrypted <- is_encrypted pdf ;;
  let len_pdf := List.length (page_has_signature pdf) in
  let '(status, reason) :=
    if Nat.ltb len_pdf 1 then
      ("not validated", "Empty document")
    else if has_signature && negb is_encrypted then
      ("validated", "Validated via digital signature and no encryption")
    else if negb has_signature && negb is_encrypted then
      ("validated", "Validated via open document with no encryption")
    else
      ("not validated", "Document is encrypted or lacks valid signature")
  in
  Ok [("status", VStr status);
      ("reason", VStr reason);
      ("metadata",
       VDict
         [("title", Py.get_or metadata "title" (VStr []));
          ("author", Py.get_or metadata "author" (VStr []));
          ("creator", Py.get_or metadata "creator" (VStr []));
          ("producer", Py.get_or metadata "producer" (VStr []));
          ("creation_date", Py.get_or metadata "creationDate" (VStr []));
          ("mod_date", Py.get_or metadata "modDate" (VStr []));
          ("total_pages", VInt (Z.of_nat len_pdf));
          ("has_signature", VBool has_signature);
          ("is_encrypted", VBool is_encrypted)])].

(** [PDFDocumentAuthenticator.authenticate_pdf]: every exception of the
    [try] body becomes a rejection; the [finally] clause closes the
    document when it was opened, and only that call can still raise. *)
Definition authenticate_pdf (pdf_path : str) : result dict :=
  let on_exception (e : exn) :=
    rejected ("Error during authentication: " ++ exn_str e) in
  match path_exists W pdf_path with
  | Raise e => Ok (on_exception e)
  | Ok false => Ok (rejected "File not found")
  | Ok true =>
      match pdfium_open W pdf_path with
      | Raise e => Ok (on_exception e)
      | Ok pdf =>
          let result :=
            match inspect pdf with
            | Ok d => d
            | Raise e => on_exception e
            end in
          _ <- close pdf ;;
          Ok result
      end
  end.

Definition validate_authentication (api_key input_path : str)
  : result dict :=
  result <- authenticate_pdf input_path ;;
  let '(status, reason) :=
    if Py.eq_str (Py.get result "status") "not validated"
    then ("not validated",
          Py.get_or result "reason" (VStr "Validation failed"))
    else ("validated",
          Py.get_or result "reason" (VStr "Validated")) in
  Ok [("status", VStr "success");
      ("result",
       VDict [("status", VStr status);
              ("reason", reason);
              ("metadata", Py.get_or result "metadata" (VDict []));
              ("has_signature",
               Py.get_or result "has_signature" (VBool false));
              ("is_encrypted",
               Py.get_or result "is_encrypted" (VBool false))]);
      ("message",
       VStr ("Authentication Validation: " ++ Str.upper status))].

End WithWorld.
End AuthenticityValidation.

(* ===================================================================== *)
(** ** AI_supervisor.py                                                   *)
(* ===================================================================== *)

Module Supervisor.

Record ValidationState := {
  input_path : str;
  api_key : str;
  content_validation_result : dict;
  authentication_validation_result : dict;
  final_decision : str;
  reasoning : str
}.

Section WithWorld.

Variable W : World.

(** An object interpolated into an f-string. *)
Definition format (v : value) : str :=
  match v with
  | VStr s => s
  | _ => repr W v
  end.

(** [d[k]] *)
Definition getitem (d : dict) (k : str) : result value :=
  match Py.lookup d k with
  | Some v => Ok v
  | None => Raise (Exception ("'" ++ k ++ "'"))
  end.

(** [DocumentValidationAgent.run_content_validation] *)
Definition run_content_validation (api_key input_path : str) : dict :=
  let attempt :=
    result <- ContentValidation.validate_content W api_key input_path ;;
    status <- Py.call_get result "status" (VStr "unknown") ;;
    Ok [("status", VStr "success");
        ("result", result);
        ("message", VStr ("Content Validation: " ++ format status))] in
  match attempt with
  | Ok verdict => verdict
  | Raise e =>
      [("status", VStr "error");
       ("result", VNone);
       ("message", VStr ("Content Validation Error: " ++ exn_str e))]
  end.

(** [DocumentValidationAgent.run_authentication_validation] *)
Definition run_authentication_validation (api_key input_path : str)
  : dict :=
  let attempt :=
    result <-
      AuthenticityValidation.validate_authentication W api_key input_path ;;
    status <-
      Py.call_get (Py.get_or result "result" (VDict [])) "status"
                  (VStr "unknown") ;;
    Ok [("status", VStr "success");
        ("result", Py.get result "result");
        ("message",
         VStr ("Authentication Validation: " ++ format status))] in
  match attempt with
  | Ok verdict => verdict
  | Raise e =>
      [("status", VStr "error");
       ("result", VNone);
       ("message",
        VStr ("Authentication Validation Error: " ++ exn_str e))]
  end.

(** The workflow nodes of [create_validation_workflow api_key]. *)
Section Workflow.

Variable agent_api_key : str.

Definition content_validation_node (state : ValidationState)
  : result ValidationState :=
  let result := run_content_validation agent_api_key (input_path state) in
  status <- getitem result "status" ;;
  Ok {| input_path := input_path state;
        api_key := api_key state;
        content_validation_result := result;
        authentication_validation_result :=
          authentication_validation_result state;
        final_decision := final_decision state;
        reasoning := "Content validation: " ++ format status |}.

Definition authentication_validation_node (state : ValidationState)
  : result ValidationState :=
  let result :=
    run_authentication_validation agent_api_key (input_path state) in
  status <- getitem result "status" ;;
  Ok {| input_path := input_path state;
        api_key := api_key state;
        content_validation_result := content_validation_result state;
        authentication_validation_result := result;
        final_decision := final_decision state;
        reasoning :=
          reasoning state ++ " | Authenticity validation: "
            ++ format status |}.

(** [r.get("status") == "success" and r.get("result") and
     r.get("result", {}).get("status") == "validated"]: the value of
    an [and] chain is its first falsy operand, or else its last. *)
Definition validity (r : dict) : result value :=
  let a := VBool (Py.eq_str (Py.get r "status") "success") in
  if negb (Py.truthy a) then Ok a
  else
    let b := Py.get r "result" in
    if negb (Py.truthy b) then Ok b
    else
      s <- Py.call_get (Py.get_or r "result" (VDict [])) "status"
                       VNone ;;
      Ok (VBool (Py.eq_str s "validated")).

Definition decision_node (state : ValidationState)
  : result ValidationState :=
  let content_result := content_validation_result state in
  let auth_result := authentication_validation_result state in
  content_valid <- validity content_result ;;
  auth_valid <- validity auth_result ;;
  let final_decision :=
    if Py.truthy content_valid && Py.truthy auth_valid then
      "✅ Document is VALID - Passed both content and authenticity checks"
    else if Py.truthy content_valid && negb (Py.truthy auth_valid) then
      "⚠️ Document needs MANUAL REVIEW - Passed content but failed authenticity"
    else if negb (Py.truthy content_valid) && Py.truthy auth_valid then
      "⚠️ Document needs MANUAL REVIEW - Passed authenticity but failed content"
    else
      "❌ Document is INVALID - Failed both content and authenticity checks"
  in
  Ok {| input_path := input_path state;
        api_key := api_key state;
        content_validation_result := content_validation_result state;
        authentication_validation_result :=
          authentication_validation_result state;
        final_decision := final_decision;
        reasoning :=
          reasoning state ++ " | Final decision: " ++ final_decision |}.

(** The compiled graph: entry point, two edges, end. *)
Definition invoke (initial_state : ValidationState)
  : result ValidationState :=
  s1 <- content_validation_node initial_state ;;
  s2 <- authentication_validation_node s1 ;;
  decision_node s2.

End Workflow.

Definition initial_state (api_key input_path : str) : ValidationState :=
  {| input_path := ContentValidation.strip W input_path;
     api_key := api_key;
     content_validation_result := [];
     authentication_validation_result := [];
     final_decision := [];
     reasoning := "Starting validation process" |}.

Definition run_document_validation (api_key input_path : str)
  : result ValidationState :=
  invoke api_key (initial_state api_key input_path).

End WithWorld.
End Supervisor.

(* ===================================================================== *)
(** ** The specification's vocabulary                                     *)
(* ===================================================================== *)

Module Spec.

(** A stage verdict as the data model describes it: a status, a nullable
    structured result, a message. *)
Record Verdict := {
  status : str;
  result : option dict;
  message : str
}.

(** The dict that carries a verdict in the run state. *)
Definition encode (v : Verdict) : dict :=
  [("status", VStr (status v));
   ("result", match result v with
                | Some d => VDict d
                | None => VNone
                end);
   ("message", VStr (message v))].

(** [status == "success" AND result present AND
     result.status == "validated"] *)
Definition is_valid (v : Verdict) : bool :=
  Str.eqb (status v) "success"
  && match result v with
     | Some d => Py.eq_str (Py.get d "status") "validated"
     | None => false
     end.

(** [status == "error"] implies no result, [status == "success"] implies
    a result. *)
Definition well_formed (v : Verdict) : Prop :=
  (status v = "error" /\ result v = None)
  \/ (status v = "success" /\ exists d, result v = Some d).

Inductive FinalDecision :=
| VALID
| MANUAL_REVIEW_FAILED_AUTHENTICITY
| MANUAL_REVIEW_FAILED_CONTENT
| INVALID.

(** The 2x2 table. *)
Definition decide (content_valid auth_valid : bool) : FinalDecision :=
  match content_valid, auth_valid with
  | true, true => VALID
  | true, false => MANUAL_REVIEW_FAILED_AUTHENTICITY
  | false, true => MANUAL_REVIEW_FAILED_CONTENT
  | false, false => INVALID
  end.

Definition decision_text (d : FinalDecision) : str :=
  match d with
  | VALID =>
      "✅ Document is VALID - Passed both content and authenticity checks"
  | MANUAL_REVIEW_FAILED_AUTHENTICITY =>
      "⚠️ Document needs MANUAL REVIEW - Passed content but failed authenticity"
  | MANUAL_REVIEW_FAILED_CONTENT =>
      "⚠️ Document needs MANUAL REVIEW - Passed authenticity but failed content"
  | INVALID =>
      "❌ Document is INVALID - Failed both content and authenticity checks"
  end.

(** A run state holding the two verdicts. *)
Definition with_verdicts (st : Supervisor.ValidationState)
           (content auth : Verdict) : Supervisor.ValidationState :=
  {| Supervisor.input_path := Supervisor.input_path st;
     Supervisor.api_key := Supervisor.api_key st;
     Supervisor.content_validation_result := encode content;
     Supervisor.authentication_validation_result := encode auth;
     Supervisor.final_decision := Supervisor.final_decision st;
     Supervisor.reasoning := Supervisor.reasoning st |}.

(** The status carried by the inner result of a verdict dict. *)
Definition inner_status (verdict : dict) : value :=
  match Py.get verdict "result" with
  | VDict d => Py.get d "status"
  | _ => VNone
  end.

(** What an inspection that raised nothing found out about a path. *)
Inductive Inspection :=
| FileMissing
| Inspected (total_pages : nat) (has_signature encrypted : bool).

Definition inspection_of (W : World) (pdf_path : str) : option Inspection :=
  match path_exists W pdf_path with
  | Ok false => Some FileMissing
  | Ok true =>
      match pdfium_open W pdf_path with
      | Ok pdf =>
          match get_metadata pdf, is_encrypted pdf, close pdf with
          | Ok _, Ok encrypted, Ok _ =>
              Some (Inspected
                      (List.length (page_has_signature pdf))
                      (AuthenticityValidation.scan_signatures
                         (page_has_signature pdf))
                      encrypted)
          | _, _, _ => None
          end
      | Raise _ => None
      end
  | Raise _ => None
  end.

(** The validity rule in its priority order: the status, and the reason
    where the rule fixes one. *)
Definition validity_rule (i : Inspection) : str * option str :=
  match i with
  | FileMissing => ("not validated", Some "File not found")
  | Inspected O _ _ => ("not validated", Some "Empty document")
  | Inspected _ true false => ("validated", None)
  | Inspected _ false false => ("validated", None)
  | Inspected _ _ true =>
      ("not validated",
       Some "Document is encrypted or lacks valid signature")
  end.

Definition follows_rule (d : dict) (rule : str * option str) : Prop :=
  Py.get d "status" = VStr (fst rule)
  /\ match snd rule with
     | Some reason => Py.get d "reason" = VStr reason
     | None => True
     end.

(** Calendar normalisation as the specification words it: every matched
    substring whose conversion succeeds is replaced, as a whole, by the
    Gregorian date; the others stay. *)
Fixpoint replace_matches (skip : nat) (r : Re.regex)
         (repl : Re.groups -> str -> str) (s : str) : str :=
  match s with
  | [] => []
  | c :: s' =>
      match skip with
      | S n => replace_matches n r repl s'
      | O =>
          match Re.match_at r s with
          | Some (g, rest) =>
              match List.length s - List.length rest with
              | O => c :: replace_matches 0 r repl s'
              | S n => repl g (firstn (S n) s) ++ replace_matches n r repl s'
              end
          | None => c :: replace_matches 0 r repl s'
          end
      end
  end.

Definition normalize (W : World) (text : str) : str :=
  replace_matches 0 (ContentValidation.hijri_date_pattern W)
    (fun g matched =>
       match ContentValidation.gregorian_of_match W g with
       | Ok date => ContentValidation.strftime_ymd date
       | Raise _ => matched
       end)
    text.

(** Texts made of decimal digits only, texts without any, and the
    number a digit string denotes. *)
Definition all_digits (W : World) (s : str) : bool :=
  forallb (is_decimal W) s.

Definition digit_free (W : World) (s : str) : bool :=
  forallb (fun c => negb (is_decimal W c)) s.

Definition digits_value (W : World) (s : str) : Z :=
  fold_left (fun acc c => 10 * acc + decimal_value W c)%Z s 0%Z.

(** A log is append-only across a step when the old log is a prefix of
    the new one. *)
Definition extends (old new : str) : bool := Str.startswith new old.

End Spec.

(* ===================================================================== *)
(** ** A sample world                                                     *)
(* ===================================================================== *)

(** A small concrete world on which the functions can be run: a directory
    [docs] with two markdown pages and a text file, a markdown report
    carrying a Hijri date, an encrypted and signed PDF that the OCR
    pipeline cannot read, and an LLM that does not answer in JSON. *)
Module Sample.

Definition between (lo hi c : N) : bool := ((lo <=? c) && (c <=? hi))%N.

(** ASCII and Arabic-Indic digits. *)
Definition is_decimal (c : Str.char) : bool :=
  between 48 57 c || between 0x660 0x669 c.

Definition decimal_value (c : Str.char) : Z :=
  if between 48 57 c then Z.of_N c - 48 else Z.of_N c - 0x660.

Definition is_whitespace (c : Str.char) : bool :=
  between 9 13 c || between 28 32 c || (c =? 0x85)%N || (c =? 0xA0)%N
  || (c =? 0x1680)%N || between 0x2000 0x200A c || (c =? 0x2028)%N
  || (c =? 0x2029)%N || (c =? 0x202F)%N || (c =? 0x205F)%N
  || (c =? 0x3000)%N.

Definition repr (v : value) : str :=
  match v with
  | VNone => "None"
  | VBool true => "True"
  | VBool false => "False"
  | _ => "<object>"
  end.

(** 15 Jumada II 1445 AH is 28 December 2023; this sample converter
    knows no other date. *)
Definition hijri_to_gregorian (y m d : Z) : result (Z * Z * Z) :=
  if ((y =? 1445) && (m =? 6) && (d =? 15))%Z
  then Ok (2023, 12, 28)%Z
  else Raise (Exception "date out of range").

Definition files : list (str * str) :=
  [("docs/page1.md", "first page");
   ("docs/page2.md", "second page");
   ("docs/notes.txt", "not markdown");
   ("report.md", "Date: 15/6/1445 هـ")].

Fixpoint find (l : list (str * str)) (k : str) : option str :=
  match l with
  | [] => None
  | (k', v) :: l' => if Str.eqb k' k then Some v else find l' k
  end.

Definition path_is_dir (p : str) : bool := Str.eqb p "docs".

Definition path_exists (p : str) : result bool :=
  Ok (path_is_dir p || Str.eqb p "scan.pdf"
      || match find files p with Some _ => true | None => false end).

Definition os_listdir (p : str) : result (list str) :=
  if path_is_dir p
  then Ok ["page2.md"; "notes.txt"; "page1.md"]
  else Raise (Exception "Not a directory").

Definition read_text (p : str) : result str :=
  match find files p with
  | Some t => Ok t
  | None => Raise (Exception "No such file or directory")
  end.

Definition ocr_pages (p : str) : result (list str) :=
  Raise (Exception "Surya OCR not available for markdown creation").

Definition chat_completion (api_key prompt : str) : result str :=
  Ok "  Sorry, I cannot judge this document.  ".

Definition json_loads (s : str) : result value :=
  if Str.eqb s "{}" then Ok (VDict [])
  else Raise (Exception "Expecting value: line 1 column 1 (char 0)").

Definition scan_pdf : PdfDocument :=
  {| get_metadata := Ok [("title", VStr "Scan")];
     page_has_signature := [Ok false; Ok true];
     is_encrypted := Ok true;
     close := Ok tt |}.

Definition pdfium_open (p : str) : result PdfDocument :=
  if Str.eqb p "scan.pdf" then Ok scan_pdf
  else Raise (Exception "Failed to load document").

Definition world : World :=
  Build_World is_decimal decimal_value is_whitespace repr
              hijri_to_gregorian path_exists path_is_dir os_listdir
              read_text ocr_pages chat_completion json_loads pdfium_open.

Definition key : str := "secret".

End Sample.

(* ===================================================================== *)
(** ** content_validation.py: [ocr_to_markdown]                           *)
(* ===================================================================== *)

Module OcrMarkdown.

(** A recognised text line, as far as [ocr_to_markdown] reads it: its
    text, and the printed form of its bounding box. *)
Record TextLine := {
  text : str;
  bbox : str
}.

(** A table cell: its row, and what the recogniser reads in the image
    cropped to the cell (the texts of the lines found there), or the
    exception of the crop or of the recogniser. *)
Record TableCell := {
  row_id : Z;
  cell_text_lines : result (list str)
}.

Definition TableResult := list TableCell.

(** [str(n)] of a natural number. *)
Fixpoint str_of_uint (u : Decimal.uint) : str :=
  match u with
  | Decimal.Nil => []
  | Decimal.D0 u' => 48%N :: str_of_uint u'
  | Decimal.D1 u' => 49%N :: str_of_uint u'
  | Decimal.D2 u' => 50%N :: str_of_uint u'
  | Decimal.D3 u' => 51%N :: str_of_uint u'
  | Decimal.D4 u' => 52%N :: str_of_uint u'
  | Decimal.D5 u' => 53%N :: str_of_uint u'
  | Decimal.D6 u' => 54%N :: str_of_uint u'
  | Decimal.D7 u' => 55%N :: str_of_uint u'
  | Decimal.D8 u' => 56%N :: str_of_uint u'
  | Decimal.D9 u' => 57%N :: str_of_uint u'
  end.

Definition str_of_nat (n : nat) : str := str_of_uint (Nat.to_uint n).

(** [str(z)] of an integer. *)
Definition str_of_Z (z : Z) : str :=
  if (z <? 0)%Z then 45%N :: str_of_nat (Z.to_nat (- z))
  else str_of_nat (Z.to_nat z).

(** The dict [rows]: row id to the texts of its cells, in insertion
    order. *)
Definition rows := list (Z * list str).

(** [if row_id not in rows: rows[row_id] = []] *)
Fixpoint setdefault_empty (rs : rows) (r : Z) : rows :=
  match rs with
  | [] => [(r, [])]
  | (r', cells) :: rs' =>
      if (r' =? r)%Z then rs else (r', cells) :: setdefault_empty rs' r
  end.

(** [rows[row_id].append(t)] *)
Fixpoint append_cell (rs : rows) (r : Z) (t : str) : result rows :=
  match rs with
  | [] => Raise (Exception (str_of_Z r))
  | (r', cells) :: rs' =>
      if (r' =? r)%Z then Ok ((r', cells ++ [t]) :: rs')
      else rs'' <- append_cell rs' r t ;; Ok ((r', cells) :: rs'')
  end.

(** [sorted(rows.keys())] *)
Fixpoint insert_key (r : Z) (l : list Z) : list Z :=
  match l with
  | [] => [r]
  | q :: l' => if (r <=? q)%Z then r :: l else q :: insert_key r l'
  end.

Definition sorted_keys (rs : rows) : list Z :=
  fold_right insert_key [] (List.map fst rs).

Definition row_cells (rs : rows) (r : Z) : list str :=
  match List.find (fun kv => (fst kv =? r)%Z) rs with
  | Some (_, cells) => cells
  | None => []
  end.

Section WithWorld.

Variable W : World.

(** The loop over [ocr_pred.text_lines]. *)
Definition text_entries (markdown_lines : list str)
           (text_lines : list TextLine) : list str :=
  fold_left
    (fun acc line =>
       let t := ContentValidation.strip W (text line) in
       match t with
       | [] => acc
       | _ :: _ => acc ++ ["- " ++ t ++ "  (bbox=" ++ bbox line ++ ")"]
       end)
    text_lines markdown_lines.

(** The loop over [table_pred.cells]. *)
Fixpoint collect_rows (rs : rows) (cells : list TableCell) : result rows :=
  match cells with
  | [] => Ok rs
  | cell :: rest =>
      let rs1 := setdefault_empty rs (row_id cell) in
      lines <- cell_text_lines cell ;;
      let cell_text := ContentValidation.strip W (Str.join " " lines) in
      rs2 <- append_cell rs1 (row_id cell)
                         (match cell_text with [] => " " | _ :: _ => cell_text end) ;;
      collect_rows rs2 rest
  end.

Definition row_line (row_cells : list str) : str :=
  "| " ++ Str.join " | " row_cells ++ " |".

(** The lines one table adds; [n_bboxes] is [len(table_bboxes)], and
    [table_bboxes[t_idx]] is looked up when that list is not empty. *)
Definition table_lines (n_bboxes t_idx : nat) (table : TableResult)
  : result (list str) :=
  _ <- (if Nat.eqb n_bboxes 0 then Ok tt
        else if Nat.ltb t_idx n_bboxes then Ok tt
        else Raise (Exception "list index out of range")) ;;
  rs <- collect_rows [] table ;;
  Ok ([ContentValidation.nl ++ "## Table " ++ str_of_nat (t_idx + 1)
         ++ ContentValidation.nl]
        ++ List.map (fun r => row_line (row_cells rs r)) (sorted_keys rs)
        ++ [[]]).

(** The loop over [enumerate(table_preds)]. *)
Fixpoint tables_lines (n_bboxes t_idx : nat) (markdown_lines : list str)
         (table_preds : list TableResult) : result (list str) :=
  match table_preds with
  | [] => Ok markdown_lines
  | table :: rest =>
      ls <- table_lines n_bboxes t_idx table ;;
      tables_lines n_bboxes (S t_idx) (markdown_lines ++ ls) rest
  end.

Definition ocr_to_markdown (text_lines : list TextLine)
           (table_preds : list TableResult) (n_bboxes : nat) : result str :=
  let markdown_lines := ["## Text Lines" ++ ContentValidation.nl] in
  let markdown_lines := text_entries markdown_lines text_lines in
  markdown_lines <- tables_lines n_bboxes 0 markdown_lines table_preds ;;
  Ok (Str.join ContentValidation.nl markdown_lines).

End WithWorld.
End OcrMarkdown.

(* ===================================================================== *)
(** ** More vocabulary, and a second sample world                         *)
(* ===================================================================== *)

Module Facts.

(** The text has the character [c]. *)
Definition contains (c : Str.char) (s : str) : bool :=
  existsb (fun x => (x =? c)%N) s.

(** Every page before the first signed one was checked without error and
    found unsigned. *)
Definition unsigned_page (p : result bool) : bool :=
  match p with
  | Ok false => true
  | _ => false
  end.

(** What is needed for the authenticity stage to say "validated": the
    file exists, opens, reports its metadata and its encryption flag as
    unset, has a page, and closes. *)
Definition passes_authenticity (W : World) (pdf_path : str) : Prop :=
  path_exists W pdf_path = Ok true
  /\ exists pdf metadata,
      pdfium_open W pdf_path = Ok pdf
      /\ get_metadata pdf = Ok metadata
      /\ is_encrypted pdf = Ok false
      /\ page_has_signature pdf <> []
      /\ close pdf = Ok tt.

(** What is needed for the content stage to say "validated": the
    validator returns a dict whose status is that very string. *)
Definition passes_content (W : World) (key input_path : str) : Prop :=
  exists verdict,
    ContentValidation.validate_content W key input_path = Ok (VDict verdict)
    /\ Py.get verdict "status" = VStr "validated".

(** The inspection of the path fails with [e] before the verdict is
    formed: at the existence test, at the opening, or, the document open
    and closing without error, at the metadata or at the encryption
    flag. *)
Definition inspection_fails (W : World) (pdf_path : str) (e : exn) : Prop :=
  path_exists W pdf_path = Raise e
  \/ (path_exists W pdf_path = Ok true
      /\ (pdfium_open W pdf_path = Raise e
          \/ exists pdf,
              pdfium_open W pdf_path = Ok pdf
              /\ close pdf = Ok tt
              /\ (get_metadata pdf = Raise e
                  \/ exists metadata,
                      get_metadata pdf = Ok metadata
                      /\ is_encrypted pdf = Raise e))).

(** The status of a verdict, when there is one. *)
Definition status_of (r : result dict) : result value :=
  d <- r ;; Ok (Py.get d "status").

(** A document with other signature findings on the same pages. *)
Definition with_signatures (pdf : PdfDocument) (pages : list (result bool))
  : PdfDocument :=
  {| get_metadata := get_metadata pdf;
     page_has_signature := pages;
     is_encrypted := is_encrypted pdf;
     close := close pdf |}.

(** A text line that is kept (its text is not blank), and the entry it
    gets. *)
Definition kept_line (W : World) (line : OcrMarkdown.TextLine) : bool :=
  match ContentValidation.strip W (OcrMarkdown.text line) with
  | [] => false
  | _ :: _ => true
  end.

Definition line_entry (W : World) (line : OcrMarkdown.TextLine) : str :=
  "- " ++ ContentValidation.strip W (OcrMarkdown.text line)
       ++ "  (bbox=" ++ OcrMarkdown.bbox line ++ ")".

(** The heading of the table at index [t_idx]. *)
Definition table_heading (t_idx : nat) : str :=
  ContentValidation.nl ++ "## Table " ++ OcrMarkdown.str_of_nat (t_idx + 1)
    ++ ContentValidation.nl.

(** The cells of a table that lie in row [r], in the order of the table,
    as they are printed. *)
Definition printed_cell (W : World) (lines : list str) : str :=
  let cell_text := ContentValidation.strip W (Str.join " " lines) in
  match cell_text with
  | [] => " "
  | _ :: _ => cell_text
  end.

(** A cell of row [r] in which the recogniser read [lines]. *)
Definition recognised (c : Z * list str) : OcrMarkdown.TableCell :=
  {| OcrMarkdown.row_id := fst c;
     OcrMarkdown.cell_text_lines := Ok (snd c) |}.

Definition cells_of_row (W : World) (table : list (Z * list str)) (r : Z)
  : list str :=
  List.map (fun c => printed_cell W (snd c))
           (List.filter (fun c => (fst c =? r)%Z) table).

End Facts.

(** A world in which everything goes well: [report.pdf] is a one-page,
    unsigned, unencrypted PDF, the OCR pipeline reads one page from it, and
    the LLM answers with a JSON object that says "validated". *)
Module GoodSample.

Definition verdict_json : str :=
  "{" ++ ContentValidation.dq ++ "status" ++ ContentValidation.dq ++ ": "
      ++ ContentValidation.dq ++ "validated" ++ ContentValidation.dq ++ "}".

Definition path_exists (p : str) : result bool := Ok (Str.eqb p "report.pdf").

Definition ocr_pages (p : str) : result (list str) :=
  if Str.eqb p "report.pdf"
  then Ok ["## Text Lines" ++ ContentValidation.nl ++ "- Red Crescent 15/6/1445"]
  else Raise (Exception "cannot identify image file").

Definition chat_completion (api_key prompt : str) : result str :=
  Ok (verdict_json ++ ContentValidation.nl).

Definition json_loads (s : str) : result value :=
  if Str.eqb s verdict_json then Ok (VDict [("status", VStr "validated")])
  else Raise (Exception "Expecting value: line 1 column 1 (char 0)").

Definition report_pdf : PdfDocument :=
  {| get_metadata := Ok [("title", VStr "Report")];
     page_has_signature := [Ok false];
     is_encrypted := Ok false;
     close := Ok tt |}.

Definition pdfium_open (p : str) : result PdfDocument :=
  if Str.eqb p "report.pdf" then Ok report_pdf
  else Raise (Exception "Failed to load document").

Definition world : World :=
  Build_World Sample.is_decimal Sample.decimal_value Sample.is_whitespace
              Sample.repr Sample.hijri_to_gregorian path_exists
              (fun _ => false)
              (fun _ => Raise (Exception "Not a directory"))
              (fun _ => Raise (Exception "No such file or directory"))
              ocr_pages chat_completion json_loads pdfium_open.

End GoodSample.

(** A world in which things fail: the directory [vault] cannot be
    listed, the LLM endpoint refuses the credential [expired] and answers
    every other one with a JSON list. *)
Module FaultySample.

Definition path_is_dir (p : str) : bool := Str.eqb p "vault".

Definition read_text (p : str) : result str :=
  if Str.eqb p "note.md" then Ok "Referral, 1 page"
  else Raise (Exception "No such file or directory").

Definition chat_completion (api_key prompt : str) : result str :=
  if Str.eqb api_key "expired"
  then Raise (Exception "401 Client Error: Unauthorized")
  else Ok "[]".

Definition json_loads (s : str) : result value :=
  if Str.eqb s "[]" then Ok (VList [])
  else Raise (Exception "Expecting value: line 1 column 1 (char 0)").

Definition world : World :=
  Build_World Sample.is_decimal Sample.decimal_value Sample.is_whitespace
              Sample.repr Sample.hijri_to_gregorian
              (fun _ => Ok false)
              path_is_dir
              (fun _ => Raise (Exception "Permission denied"))
              read_text
              (fun _ => Raise (Exception "cannot identify image file"))
              chat_completion json_loads
              (fun _ => Raise (Exception "Failed to load document")).

End FaultySample.

(* ===================================================================== *)
(** * Properties                                                          *)
(* ===================================================================== *)

(** ** Strings *)

Lemma str_eqb_eq (a b : str) : Str.eqb a b = true <-> a = b.
Proof.
  revert b; induction a as [|x a IH]; intros [|y b]; simpl;
    try (split; congruence).
  rewrite andb_true_iff, N.eqb_eq, IH. split.
  - intros [-> ->]; reflexivity.
  - intros H; injection H; auto.
Qed.

Lemma str_eqb_refl (a : str) : Str.eqb a a = true.
Proof. now apply str_eqb_eq. Qed.



(** ** The decision stage *)

Section DecisionFacts.

Import Supervisor.

Lemma get_encode_status (v : Spec.Verdict) :
  Py.get (Spec.encode v) "status" = VStr (Spec.status v).
Proof. reflexivity. Qed.

Lemma get_encode_result (v : Spec.Verdict) :
  Py.get (Spec.encode v) "result"
  = match Spec.result v with Some d => VDict d | None => VNone end.
Proof. reflexivity. Qed.

(** On the dict of a verdict, the [and] chain of the decision node
    never raises, and its truth value is the specification's boolean. *)
Lemma validity_encode (v : Spec.Verdict) :
  exists flag, validity (Spec.encode v) = Ok flag
               /\ Py.truthy flag = Spec.is_valid v.
Proof.
  unfold validity, Spec.is_valid.
  rewrite get_encode_status.
  change (Py.get_or (Spec.encode v) "result" (VDict []))
    with (Py.get (Spec.encode v) "result").
  rewrite get_encode_result.
  cbn [Py.eq_str Py.truthy].
  destruct (Str.eqb (Spec.status v) "success"); cbn [negb andb].
  - destruct (Spec.result v) as [[|kv d]|]; cbn.
    + eexists; split; reflexivity.
    + eexists; split; reflexivity.
    + eexists; split; reflexivity.
  - eexists; split; reflexivity.
Qed.

Lemma decision_node_encode (st : ValidationState) (cv av : Spec.Verdict) :
  decision_node (Spec.with_verdicts st cv av)
  = Ok {| input_path := input_path st;
          api_key := api_key st;
          content_validation_result := Spec.encode cv;
          authentication_validation_result := Spec.encode av;
          final_decision :=
            Spec.decision_text
              (Spec.decide (Spec.is_valid cv) (Spec.is_valid av));
          reasoning :=
            reasoning st ++ " | Final decision: "
              ++ Spec.decision_text
                   (Spec.decide (Spec.is_valid cv) (Spec.is_valid av)) |}.
Proof.
  unfold decision_node.
  cbn [Spec.with_verdicts content_validation_result
       authentication_validation_result input_path api_key reasoning
       Supervisor.final_decision].
  destruct (validity_encode cv) as (fc & -> & <-).
  destruct (validity_encode av) as (fa & -> & <-).
  cbn [Py.bind].
  destruct (Py.truthy fc), (Py.truthy fa); reflexivity.
Qed.

End DecisionFacts.

(** The four final decisions are four different texts. *)
Lemma decision_text_injective (d1 d2 : Spec.FinalDecision) :
  Spec.decision_text d1 = Spec.decision_text d2 -> d1 = d2.
Proof.
  destruct d1, d2; intros H; try reflexivity; discriminate H.
Qed.

(** C1.  For every pair of verdicts, the decision stage stores exactly
    the entry of the 2x2 table selected by the two booleans
    [content_valid] and [auth_valid] of the specification (status is
    "success", result present, result status is "validated"): VALID,
    MANUAL REVIEW (failed authenticity), MANUAL REVIEW (failed content) or
    INVALID; the four constructors of [Spec.FinalDecision] are the only
    outcomes. *)
Theorem decision_table_exhaustive :
  forall (st : Supervisor.ValidationState) (cv av : Spec.Verdict),
    exists st',
      Supervisor.decision_node (Spec.with_verdicts st cv av) = Ok st'
      /\ Supervisor.final_decision st'
         = Spec.decision_text
             (match Spec.is_valid cv, Spec.is_valid av with
              | true, true => Spec.VALID
              | true, false => Spec.MANUAL_REVIEW_FAILED_AUTHENTICITY
              | false, true => Spec.MANUAL_REVIEW_FAILED_CONTENT
              | false, false => Spec.INVALID
              end)
      /\ Supervisor.content_validation_result st' = Spec.encode cv
      /\ Supervisor.authentication_validation_result st' = Spec.encode av.
Proof.
  intros st cv av. rewrite decision_node_encode.
  eexists; split; [reflexivity|]. cbn. repeat split.
Qed.

Example literal_code_points :
  "a.md" = [97; 46; 109; 100]%N
  /\ "هـ" = [0x647; 0x640]%N
  /\ "هجري" = [0x647; 0x62c; 0x631; 0x64a]%N
  /\ "⚠️ x" = [0x26a0; 0xfe0f; 32; 120]%N.
Proof. repeat split. Qed.

(** ** The authenticity stage *)

Section AuthenticityFacts.

Import AuthenticityValidation.
Variable W : World.

(** The only way [authenticate_pdf] raises is through the [close] of
    the [finally] clause. *)
Lemma authenticate_pdf_cases (pdf_path : str) :
  (exists d, authenticate_pdf W pdf_path = Ok d)
  \/ (exists pdf e,
         path_exists W pdf_path = Ok true
         /\ pdfium_open W pdf_path = Ok pdf
         /\ close pdf = Raise e
         /\ authenticate_pdf W pdf_path = Raise e).
Proof.
  unfold authenticate_pdf.
  destruct (path_exists W pdf_path) as [[|]|e0] eqn:Hex; eauto.
  destruct (pdfium_open W pdf_path) as [pdf|e1] eqn:Hop; eauto.
  destruct (close pdf) as [[]|e2] eqn:Hcl; cbn [Py.bind]; eauto 10.
Qed.

Lemma validate_authentication_raises (api_key input_path : str) (e : exn) :
  authenticate_pdf W input_path = Raise e ->
  validate_authentication W api_key input_path = Raise e.
Proof.
  intros H. unfold validate_authentication. now rewrite H.
Qed.

(** The wrapper of the supervisor around the authenticity stage: a
    "success" verdict carrying the inner result, or the "error" verdict
    of the catch-all handler. *)
Lemma run_authentication_validation_cases (api_key input_path : str) :
  (exists inner status,
      AuthenticityValidation.validate_authentication W api_key input_path
      = Ok [("status", VStr "success");
            ("result", VDict inner);
            ("message",
             VStr ("Authentication Validation: " ++ Str.upper status))]
      /\ Py.get inner "status" = VStr status
      /\ (status = "validated" \/ status = "not validated")
      /\ Supervisor.run_authentication_validation W api_key input_path
         = Spec.encode
             {| Spec.status := "success";
                Spec.result := Some inner;
                Spec.message := "Authentication Validation: " ++ status |})
  \/ (exists e,
         AuthenticityValidation.validate_authentication W api_key input_path
         = Raise e
         /\ Supervisor.run_authentication_validation W api_key input_path
            = Spec.encode
                {| Spec.status := "error";
                   Spec.result := None;
                   Spec.message :=
                     "Authentication Validation Error: " ++ exn_str e |}).
Proof.
  unfold Supervisor.run_authentication_validation.
  destruct (authenticate_pdf_cases input_path)
    as [[d Hd] | (pdf & e & _ & _ & _ & He)].
  - left. unfold validate_authentication. rewrite Hd. cbn [Py.bind].
    destruct (Py.eq_str (Py.get d "status") "not validated");
      do 2 eexists; (split; [reflexivity|]);
      (split; [reflexivity|]); split; auto.
  - right. exists e. erewrite validate_authentication_raises by exact He.
    split; reflexivity.
Qed.

End AuthenticityFacts.

(** ** The content stage wrapper *)

Section ContentWrapperFacts.

Variable W : World.

Lemma run_content_validation_cases (api_key input_path : str) :
  (exists inner,
      ContentValidation.validate_content W api_key input_path
      = Ok (VDict inner)
      /\ Supervisor.run_content_validation W api_key input_path
         = Spec.encode
             {| Spec.status := "success";
                Spec.result := Some inner;
                Spec.message :=
                  "Content Validation: "
                    ++ Supervisor.format W
                         (Py.get_or inner "status" (VStr "unknown")) |})
  \/ (exists e,
         Supervisor.run_content_validation W api_key input_path
         = Spec.encode
             {| Spec.status := "error";
                Spec.result := None;
                Spec.message :=
                  "Content Validation Error: " ++ exn_str e |}).
Proof.
  unfold Supervisor.run_content_validation.
  destruct (ContentValidation.validate_content W api_key input_path)
    as [[ | | | | |l|d]|e]; cbn [Py.bind Py.call_get];
    try (right; eexists; reflexivity).
  left. eexists; split; reflexivity.
Qed.

End ContentWrapperFacts.

(** C8.  Every verdict produced by either stage wrapper is the dict of a
    verdict whose status "error" comes with no result and whose status
    "success" comes with a result (which may itself carry an inner "not
    validated" status). *)
Theorem stage_verdicts_well_formed :
  forall (W : World) (api_key input_path : str),
    (exists v,
        Supervisor.run_content_validation W api_key input_path
        = Spec.encode v
        /\ ((Spec.status v = "error" /\ Spec.result v = None)
            \/ (Spec.status v = "success"
                /\ exists d, Spec.result v = Some d)))
    /\ (exists v,
           Supervisor.run_authentication_validation W api_key input_path
           = Spec.encode v
           /\ ((Spec.status v = "error" /\ Spec.result v = None)
               \/ (Spec.status v = "success"
                   /\ exists d, Spec.result v = Some d))).
Proof.
  intros W api_key input_path. split.
  - destruct (run_content_validation_cases W api_key input_path)
      as [(inner & _ & ->) | (e & ->)];
      eexists; (split; [reflexivity|]); cbn; eauto.
  - destruct (run_authentication_validation_cases W api_key input_path)
      as [(inner & status & _ & _ & _ & ->) | (e & _ & ->)];
      eexists; (split; [reflexivity|]); cbn; eauto.
Qed.

(** ** The workflow *)

Section WorkflowFacts.

Import Supervisor.
Variable W : World.

Lemma content_validation_node_spec (key : str) (st : ValidationState) :
  exists cv,
    run_content_validation W key (input_path st) = Spec.encode cv
    /\ Spec.well_formed cv
    /\ content_validation_node W key st
       = Ok {| input_path := input_path st;
               api_key := api_key st;
               content_validation_result := Spec.encode cv;
               authentication_validation_result :=
                 authentication_validation_result st;
               final_decision := final_decision st;
               reasoning := "Content validation: " ++ Spec.status cv |}.
Proof.
  unfold content_validation_node.
  destruct (run_content_validation_cases W key (input_path st))
    as [(inner & _ & ->) | (e & ->)];
    eexists; (split; [reflexivity|]); split;
    try reflexivity; unfold Spec.well_formed; cbn; eauto.
Qed.

Lemma authentication_validation_node_spec (key : str)
      (st : ValidationState) :
  exists av,
    run_authentication_validation W key (input_path st) = Spec.encode av
    /\ Spec.well_formed av
    /\ authentication_validation_node W key st
       = Ok {| input_path := input_path st;
               api_key := api_key st;
               content_validation_result := content_validation_result st;
               authentication_validation_result := Spec.encode av;
               final_decision := final_decision st;
               reasoning :=
                 reasoning st ++ " | Authenticity validation: "
                   ++ Spec.status av |}.
Proof.
  unfold authentication_validation_node.
  destruct (run_authentication_validation_cases W key (input_path st))
    as [(inner & status & _ & _ & _ & ->) | (e & _ & ->)];
    eexists; (split; [reflexivity|]); split;
    try reflexivity; unfold Spec.well_formed; cbn; eauto.
Qed.

(** The whole run, given the verdicts of the two stages: each stage
    fills its own field, and the log is the three stage entries in
    order. *)
Lemma invoke_with (key : str) (st : ValidationState)
      (cv av : Spec.Verdict) :
  run_content_validation W key (input_path st) = Spec.encode cv ->
  run_authentication_validation W key (input_path st) = Spec.encode av ->
  invoke W key st
  = Ok {| input_path := input_path st;
          api_key := api_key st;
          content_validation_result := Spec.encode cv;
          authentication_validation_result := Spec.encode av;
          final_decision :=
            Spec.decision_text
              (Spec.decide (Spec.is_valid cv) (Spec.is_valid av));
          reasoning :=
            ("Content validation: " ++ Spec.status cv)
              ++ " | Authenticity validation: " ++ Spec.status av
              ++ " | Final decision: "
              ++ Spec.decision_text
                   (Spec.decide (Spec.is_valid cv) (Spec.is_valid av)) |}.
Proof.
  intros Hc Ha.
  unfold invoke, content_validation_node. rewrite Hc.
  cbn [getitem Py.lookup Spec.encode Str.eqb N.eqb Pos.eqb andb Py.bind
       format].
  unfold authentication_validation_node. cbn [input_path]. rewrite Ha.
  cbn [getitem Py.lookup Spec.encode Str.eqb N.eqb Pos.eqb andb Py.bind
       format reasoning api_key content_validation_result
       Supervisor.final_decision].
  match goal with
  | |- decision_node ?s2 = _ =>
      change s2 with (Spec.with_verdicts s2 cv av)
  end.
  rewrite decision_node_encode.
  cbn [input_path api_key reasoning].
  rewrite <- !app_assoc. reflexivity.
Qed.

(** The run never raises. *)
Lemma invoke_spec (key : str) (st : ValidationState) :
  exists cv av,
    run_content_validation W key (input_path st) = Spec.encode cv
    /\ run_authentication_validation W key (input_path st) = Spec.encode av
    /\ Spec.well_formed cv
    /\ Spec.well_formed av
    /\ invoke W key st
       = Ok {| input_path := input_path st;
               api_key := api_key st;
               content_validation_result := Spec.encode cv;
               authentication_validation_result := Spec.encode av;
               final_decision :=
                 Spec.decision_text
                   (Spec.decide (Spec.is_valid cv) (Spec.is_valid av));
               reasoning :=
                 ("Content validation: " ++ Spec.status cv)
                   ++ " | Authenticity validation: " ++ Spec.status av
                   ++ " | Final decision: "
                   ++ Spec.decision_text
                        (Spec.decide (Spec.is_valid cv)
                                     (Spec.is_valid av)) |}.
Proof.
  destruct (content_validation_node_spec key st) as (cv & Hc & Wc & _).
  destruct (authentication_validation_node_spec key st)
    as (av & Ha & Wa & _).
  exists cv, av. repeat (split; [assumption|]).
  now apply invoke_with.
Qed.

End WorkflowFacts.

(** C10.  [validate_authentication] returns a verdict whose outer status
    is "success" with an inner result dict, unless the [close] of the
    [finally] clause raises; the wrapper's verdict has status "error"
    exactly when [validate_authentication] raised; and the [auth_valid]
    flag of the decision stage is true exactly when the inner result's
    status equals "validated". *)
Theorem authenticity_outer_status_always_success :
  forall (W : World) (api_key input_path : str),
    ((exists inner status message,
         AuthenticityValidation.validate_authentication W api_key input_path
         = Ok [("status", VStr "success");
               ("result", VDict inner);
               ("message", VStr message)]
         /\ Py.get inner "status" = VStr status
         /\ (status = "validated" \/ status = "not validated"))
     \/ (exists pdf e,
            path_exists W input_path = Ok true
            /\ pdfium_open W input_path = Ok pdf
            /\ close pdf = Raise e
            /\ AuthenticityValidation.validate_authentication
                 W api_key input_path = Raise e))
    /\ ((Py.get (Supervisor.run_authentication_validation W api_key input_path)
                "status" = VStr "success"
         /\ exists d,
             AuthenticityValidation.validate_authentication
               W api_key input_path = Ok d)
        \/ (Py.get
              (Supervisor.run_authentication_validation W api_key input_path)
              "status" = VStr "error"
            /\ exists e,
                AuthenticityValidation.validate_authentication
                  W api_key input_path = Raise e))
    /\ exists auth_valid,
        Supervisor.validity
          (Supervisor.run_authentication_validation W api_key input_path)
        = Ok auth_valid
        /\ Py.truthy auth_valid
           = Py.eq_str
               (Spec.inner_status
                  (Supervisor.run_authentication_validation
                     W api_key input_path))
               "validated".
Proof.
  intros W api_key input_path. split; [|split].
  - destruct (authenticate_pdf_cases W input_path)
      as [[d Hd] | (pdf & e & Hex & Hop & Hcl & He)].
    + left.
      destruct (run_authentication_validation_cases W api_key input_path)
        as [(inner & status & Hv & Hs & Hst & _) | (e & He & _)].
      * exists inner, status. eexists. eauto.
      * unfold AuthenticityValidation.validate_authentication in He.
        rewrite Hd in He. cbn [Py.bind] in He.
        destruct (Py.eq_str (Py.get d "status") "not validated");
          discriminate He.
    + right. exists pdf, e. repeat (split; [assumption|]).
      now apply validate_authentication_raises.
  - destruct (run_authentication_validation_cases W api_key input_path)
      as [(inner & status & Hv & _ & _ & ->) | (e & He & ->)].
    + left. split; [reflexivity | eauto].
    + right. split; [reflexivity | eauto].
  - destruct (run_authentication_validation_cases W api_key input_path)
      as [(inner & status & _ & Hs & _ & ->) | (e & _ & ->)].
    + match goal with
      | |- context [Supervisor.validity (Spec.encode ?v)] =>
          destruct (validity_encode v) as (flag & Hf & Ht)
      end.
      exists flag. split; [exact Hf|]. rewrite Ht. reflexivity.
    + match goal with
      | |- context [Supervisor.validity (Spec.encode ?v)] =>
          destruct (validity_encode v) as (flag & Hf & Ht)
      end.
      exists flag. split; [exact Hf|]. rewrite Ht. reflexivity.
Qed.

(** C3.  For a path that does not exist, the Authenticity Validator
    returns (it does not raise) a verdict whose inner result has status
    "not validated" and reason "File not found"; the supervisor's wrapper
    passes it on under the outer status "success". *)
Theorem missing_file_not_validated :
  forall (W : World) (api_key input_path : str),
    path_exists W input_path = Ok false ->
    AuthenticityValidation.validate_authentication W api_key input_path
    = Ok [("status", VStr "success");
          ("result",
           VDict [("status", VStr "not validated");
                  ("reason", VStr "File not found");
                  ("metadata", VDict []);
                  ("has_signature", VBool false);
                  ("is_encrypted", VBool false)]);
          ("message", VStr "Authentication Validation: NOT VALIDATED")]
    /\ Py.get (Supervisor.run_authentication_validation W api_key input_path)
              "status" = VStr "success"
    /\ Spec.inner_status
         (Supervisor.run_authentication_validation W api_key input_path)
       = VStr "not validated".
Proof.
  intros W api_key input_path Hex.
  assert (Hv : AuthenticityValidation.validate_authentication
                 W api_key input_path
               = Ok [("status", VStr "success");
                     ("result",
                      VDict [("status", VStr "not validated");
                             ("reason", VStr "File not found");
                             ("metadata", VDict []);
                             ("has_signature", VBool false);
                             ("is_encrypted", VBool false)]);
                     ("message",
                      VStr "Authentication Validation: NOT VALIDATED")]).
  { unfold AuthenticityValidation.validate_authentication,
      AuthenticityValidation.authenticate_pdf.
    rewrite Hex. reflexivity. }
  split; [exact Hv|].
  unfold Supervisor.run_authentication_validation. rewrite Hv.
  split; reflexivity.
Qed.

(** The sample world has no file [missing.pdf]. *)
Lemma missing_file_not_validated_witness :
  path_exists Sample.world "missing.pdf" = Ok false
  /\ Spec.inner_status
       (Supervisor.run_authentication_validation
          Sample.world Sample.key "missing.pdf")
     = VStr "not validated".
Proof.
  split; [reflexivity|].
  apply (missing_file_not_validated Sample.world Sample.key "missing.pdf").
  reflexivity.
Defined.

(** C2.  Whatever an inspection that raised nothing found, the verdict
    follows the validity rule in its priority order: a missing file is
    not validated with reason "File not found"; a document of zero pages
    is not validated with reason "Empty document"; an unencrypted document
    is validated, signed or not; an encrypted document is not validated
    with reason "Document is encrypted or lacks valid signature", signed
    or not. *)
Theorem validity_rule_priority :
  forall (W : World) (api_key pdf_path : str) (i : Spec.Inspection),
    Spec.inspection_of W pdf_path = Some i ->
    exists d inner message,
      AuthenticityValidation.authenticate_pdf W pdf_path = Ok d
      /\ Spec.follows_rule d (Spec.validity_rule i)
      /\ AuthenticityValidation.validate_authentication W api_key pdf_path
         = Ok [("status", VStr "success");
               ("result", VDict inner);
               ("message", VStr message)]
      /\ Spec.follows_rule inner (Spec.validity_rule i).
Proof.
  intros W api_key pdf_path i Hi.
  unfold Spec.inspection_of in Hi.
  unfold AuthenticityValidation.validate_authentication,
    AuthenticityValidation.authenticate_pdf.
  destruct (path_exists W pdf_path) as [[|]|e0]; try discriminate Hi.
  - destruct (pdfium_open W pdf_path) as [pdf|e1]; try discriminate Hi.
    unfold AuthenticityValidation.inspect.
    destruct (get_metadata pdf) as [md|e2]; try discriminate Hi.
    destruct (is_encrypted pdf) as [enc|e3]; try discriminate Hi.
    destruct (close pdf) as [[]|e4]; try discriminate Hi.
    injection Hi as <-.
    cbn [Py.bind].
    destruct (page_has_signature pdf) as [|p ps].
    + do 3 eexists. repeat split.
    + cbn [List.length Nat.ltb Nat.leb].
      destruct (AuthenticityValidation.scan_signatures (p :: ps)), enc;
        do 3 eexists; repeat split.
  - injection Hi as <-. do 3 eexists. repeat split.
Qed.

(** The sample PDF is encrypted and signed: encryption wins. *)
Lemma validity_rule_priority_witness :
  Spec.inspection_of Sample.world "scan.pdf" = Some (Spec.Inspected 2 true true)
  /\ exists d inner message,
      AuthenticityValidation.authenticate_pdf Sample.world "scan.pdf" = Ok d
      /\ Spec.follows_rule d (Spec.validity_rule (Spec.Inspected 2 true true))
      /\ AuthenticityValidation.validate_authentication
           Sample.world Sample.key "scan.pdf"
         = Ok [("status", VStr "success");
               ("result", VDict inner);
               ("message", VStr message)]
      /\ Spec.follows_rule inner
           (Spec.validity_rule (Spec.Inspected 2 true true)).
Proof.
  split; [reflexivity|].
  apply (validity_rule_priority Sample.world Sample.key "scan.pdf").
  reflexivity.
Defined.

(** In the run of the sample world the content stage does not keep the
    entry that was in the log before it. *)
Lemma reasoning_initial_entry_overwritten :
  exists st1,
    Supervisor.content_validation_node Sample.world Sample.key
      (Supervisor.initial_state Sample.world Sample.key "report.md") = Ok st1
    /\ Supervisor.reasoning
         (Supervisor.initial_state Sample.world Sample.key "report.md")
       = "Starting validation process"
    /\ Supervisor.reasoning st1 = "Content validation: success"
    /\ Spec.extends
         (Supervisor.reasoning
            (Supervisor.initial_state Sample.world Sample.key "report.md"))
         (Supervisor.reasoning st1) = false.
Proof.
  eexists. split; [vm_compute; reflexivity|].
  split; [reflexivity|]. split; reflexivity.
Qed.

(** C7 (amended).  The content stage starts the log afresh with its own
    entry, whatever the log held before; the authenticity stage and the
    decision stage only append to it.  So every run ends, without raising,
    with a log made of the content entry, then the authenticity entry,
    then the final-decision entry. *)
Theorem reasoning_log_ordered :
  forall (W : World) (key : str),
    (forall st0, exists st1 status,
        Supervisor.content_validation_node W key st0 = Ok st1
        /\ Supervisor.reasoning st1 = "Content validation: " ++ status)
    /\ (forall st1, exists st2 status,
           Supervisor.authentication_validation_node W key st1 = Ok st2
           /\ Supervisor.reasoning st2
              = Supervisor.reasoning st1
                  ++ " | Authenticity validation: " ++ status)
    /\ (forall st2,
           match Supervisor.decision_node st2 with
           | Ok st3 =>
               Supervisor.reasoning st3
               = Supervisor.reasoning st2
                   ++ " | Final decision: " ++ Supervisor.final_decision st3
           | Raise _ => True
           end)
    /\ (forall input_path, exists st content_status auth_status,
           Supervisor.run_document_validation W key input_path = Ok st
           /\ Supervisor.reasoning st
              = "Content validation: " ++ content_status
                  ++ " | Authenticity validation: " ++ auth_status
                  ++ " | Final decision: " ++ Supervisor.final_decision st).
Proof.
  intros W key. split; [|split; [|split]].
  - intros st0.
    destruct (content_validation_node_spec W key st0) as (cv & _ & _ & ->).
    do 2 eexists. split; reflexivity.
  - intros st1.
    destruct (authentication_validation_node_spec W key st1)
      as (av & _ & _ & ->).
    do 2 eexists. split; reflexivity.
  - intros st2. unfold Supervisor.decision_node.
    destruct (Supervisor.validity (Supervisor.content_validation_result st2));
      cbn [Py.bind]; [|exact I].
    destruct (Supervisor.validity
                (Supervisor.authentication_validation_result st2));
      cbn [Py.bind]; [|exact I].
    reflexivity.
  - intros input_path. unfold Supervisor.run_document_validation.
    destruct (invoke_spec W key (Supervisor.initial_state W key input_path))
      as (cv & av & _ & _ & _ & _ & ->).
    eexists. exists (Spec.status cv), (Spec.status av).
    split; [reflexivity|].
    cbn [Supervisor.reasoning Supervisor.final_decision].
    rewrite <- app_assoc. reflexivity.
Qed.

(** ** The content stage *)

Section ContentFacts.

Import ContentValidation.
Variable W : World.

Lemma validate_document_fallback (key text completion : str) (e : exn) :
  chat_completion W key (prompt_head ++ text ++ prompt_tail)
  = Ok completion ->
  json_loads W (strip W completion) = Raise e ->
  validate_document W key text = Ok fallback_verdict.
Proof.
  intros Hask Hjson. unfold validate_document, ask.
  rewrite Hask. cbn [Py.bind]. rewrite Hjson. reflexivity.
Qed.


End ContentFacts.

(** C4.  When the completion of the LLM is not parseable JSON, the content
    validation step returns the fallback verdict
    {status: "not validated", final_decision: "Invalid"} and does not
    raise; the run goes on to its end with that verdict as the content
    result, and ends in MANUAL REVIEW (failed content) or INVALID. *)
Theorem malformed_llm_response_fallback :
  forall (W : World) (key input_path text completion : str) (e : exn),
    ContentValidation.combined_text W (ContentValidation.strip W input_path)
    = Ok (inr text) ->
    chat_completion W key
      (ContentValidation.prompt_head
         ++ ContentValidation.convert_hijri_to_gregorian W text
         ++ ContentValidation.prompt_tail)
    = Ok completion ->
    json_loads W (ContentValidation.strip W completion) = Raise e ->
    ContentValidation.validate_document W key
      (ContentValidation.convert_hijri_to_gregorian W text)
    = Ok (VDict [("status", VStr "not validated");
                 ("final_decision", VStr "Invalid")])
    /\ ContentValidation.validate_content W key
         (ContentValidation.strip W input_path)
       = Ok (VDict [("status", VStr "not validated");
                    ("final_decision", VStr "Invalid")])
    /\ exists st,
        Supervisor.run_document_validation W key input_path = Ok st
        /\ Supervisor.content_validation_result st
           = [("status", VStr "success");
              ("result", VDict [("status", VStr "not validated");
                                ("final_decision", VStr "Invalid")]);
              ("message", VStr "Content Validation: not validated")]
        /\ (Supervisor.final_decision st
            = Spec.decision_text Spec.MANUAL_REVIEW_FAILED_CONTENT
            \/ Supervisor.final_decision st
               = Spec.decision_text Spec.INVALID).
Proof.
  intros W key input_path text completion e Htext Hask Hjson.
  pose proof (validate_document_fallback W key _ _ _ Hask Hjson) as Hdoc.
  assert (Hcontent :
            ContentValidation.validate_content W key
              (ContentValidation.strip W input_path)
            = Ok ContentValidation.fallback_verdict).
  { unfold ContentValidation.validate_content. rewrite Htext.
    cbn [Py.bind]. exact Hdoc. }
  split; [exact Hdoc|]. split; [exact Hcontent|].
  unfold Supervisor.run_document_validation.
  set (st0 := Supervisor.initial_state W key input_path).
  destruct (authentication_validation_node_spec W key st0)
    as (av & Ha & _ & _).
  assert (Hc : Supervisor.run_content_validation W key
                 (Supervisor.input_path st0)
               = Spec.encode
                   {| Spec.status := "success";
                      Spec.result :=
                        Some [("status", VStr "not validated");
                              ("final_decision", VStr "Invalid")];
                      Spec.message := "Content Validation: not validated" |}).
  { unfold Supervisor.run_content_validation. subst st0.
    cbn [Supervisor.initial_state Supervisor.input_path].
    rewrite Hcontent. reflexivity. }
  rewrite (invoke_with W key st0 _ _ Hc Ha).
  eexists. split; [reflexivity|]. split; [reflexivity|].
  cbn [Supervisor.final_decision]. 
  change (Spec.is_valid _) with false at 1.
  destruct (Spec.is_valid av); [left | right]; reflexivity.
Qed.

(** The sample LLM answers in prose, which the sample parser rejects. *)
Lemma malformed_llm_response_fallback_witness :
  exists st,
    Supervisor.run_document_validation Sample.world Sample.key " report.md "
    = Ok st
    /\ Supervisor.content_validation_result st
       = [("status", VStr "success");
          ("result", VDict [("status", VStr "not validated");
                            ("final_decision", VStr "Invalid")]);
          ("message", VStr "Content Validation: not validated")]
    /\ (Supervisor.final_decision st
        = Spec.decision_text Spec.MANUAL_REVIEW_FAILED_CONTENT
        \/ Supervisor.final_decision st = Spec.decision_text Spec.INVALID).
Proof.
  apply (malformed_llm_response_fallback
           Sample.world Sample.key " report.md " "Date: 15/6/1445 هـ"
           "  Sorry, I cannot judge this document.  "
           (Exception "Expecting value: line 1 column 1 (char 0)"));
    reflexivity.
Defined.



(** ** Sorting the markdown pages *)

Section SortingFacts.

Import ContentValidation.

Lemma leb_total (a b : str) : Str.leb a b = false -> Str.leb b a = true.
Proof.
  revert b; induction a as [|x a IH]; intros [|y b]; simpl;
    try congruence.
  destruct (N.ltb_spec x y), (N.ltb_spec y x); try congruence; try lia.
  apply IH.
Qed.

Lemma leb_common_prefix (p a b : str) :
  Str.leb (p ++ a) (p ++ b) = Str.leb a b.
Proof.
  induction p as [|x p IH]; simpl; [reflexivity|].
  now rewrite N.ltb_irrefl.
Qed.

Lemma leb_joinpath (folder a b : str) :
  Str.leb (joinpath folder a) (joinpath folder b) = Str.leb a b.
Proof.
  unfold joinpath. now rewrite !leb_common_prefix.
Qed.

Lemma insert_sorted_perm (p : str) (l : list str) :
  Permutation (insert_sorted p l) (p :: l).
Proof.
  induction l as [|q l IH]; simpl; [reflexivity|].
  destruct (Str.leb p q); [reflexivity|].
  rewrite IH. apply perm_swap.
Qed.

Lemma sorted_perm (l : list str) : Permutation (sorted l) l.
Proof.
  induction l as [|p l IH]; simpl; [constructor|].
  rewrite insert_sorted_perm. now constructor.
Qed.

Lemma insert_sorted_Sorted (p : str) (l : list str) :
  Sorted Str.le l -> Sorted Str.le (insert_sorted p l).
Proof.
  induction 1 as [|q l Hs IH Hhd]; simpl.
  - repeat constructor.
  - destruct (Str.leb p q) eqn:Hpq.
    + constructor; [constructor; assumption|]. constructor. exact Hpq.
    + constructor; [exact IH|].
      destruct Hhd as [|r l Hqr]; simpl.
      * constructor. now apply leb_total.
      * destruct (Str.leb p r); constructor;
          [now apply leb_total | exact Hqr].
Qed.

Lemma sorted_Sorted (l : list str) : Sorted Str.le (sorted l).
Proof.
  induction l as [|p l IH]; simpl; [constructor|].
  now apply insert_sorted_Sorted.
Qed.

(** Paths below one folder sort as their names do. *)
Lemma sorted_joinpath (folder : str) (l : list str) :
  sorted (List.map (joinpath folder) l)
  = List.map (joinpath folder) (sorted l).
Proof.
  induction l as [|p l IH]; simpl; [reflexivity|].
  rewrite IH. generalize (sorted l) as s. clear IH.
  induction s as [|q s IHs]; simpl; [reflexivity|].
  rewrite leb_joinpath. destruct (Str.leb p q); simpl; [reflexivity|].
  now rewrite IHs.
Qed.

Variable W : World.

Lemma read_all_joinpath (folder : str) (content : str -> str)
      (l : list str) :
  (forall n, In n l -> read_text W (joinpath folder n) = Ok (content n)) ->
  read_all W (List.map (joinpath folder) l) = Ok (List.map content l).
Proof.
  induction l as [|n l IH]; intros Hread; simpl; [reflexivity|].
  unfold read_markdown_file. rewrite (Hread n (or_introl eq_refl)).
  cbn [Py.bind]. rewrite IH; [reflexivity|].
  intros m Hm. apply Hread. now right.
Qed.

Lemma combined_text_directory (folder : str) (names : list str)
      (content : str -> str) :
  path_is_dir W folder = true ->
  os_listdir W folder = Ok names ->
  existsb is_md names = true ->
  (forall n, In n names -> is_md n = true ->
             read_text W (joinpath folder n) = Ok (content n)) ->
  combined_text W folder
  = Ok (inr (Str.join (nl ++ nl)
                      (List.map content (sorted (List.filter is_md names))))).
Proof.
  intros Hdir Hlist Hany Hread. unfold combined_text, glob_md.
  rewrite Hdir, Hlist. cbn [Py.bind]. rewrite Hany.
  rewrite sorted_joinpath.
  rewrite (read_all_joinpath folder content); [reflexivity|].
  intros n Hn.
  apply (Permutation_in _ (sorted_perm _)) in Hn.
  apply filter_In in Hn. destruct Hn as [Hin Hmd]. now apply Hread.
Qed.

End SortingFacts.

Lemma leb_trans (a b c : str) :
  Str.leb a b = true -> Str.leb b c = true -> Str.leb a c = true.
Proof.
  revert b c; induction a as [|x a IH]; intros [|y b] [|z c]; simpl;
    try congruence.
  destruct (N.ltb_spec x y), (N.ltb_spec y x), (N.ltb_spec y z),
    (N.ltb_spec z y), (N.ltb_spec x z), (N.ltb_spec z x);
    try congruence; try lia.
  apply IH.
Qed.

(** In a sorted list of names every name is below all the later ones. *)
Lemma sorted_StronglySorted (l : list str) :
  StronglySorted Str.le (ContentValidation.sorted l).
Proof.
  apply Sorted_StronglySorted; [|apply sorted_Sorted].
  intros a b c. apply leb_trans.
Qed.

(** C5.  For a directory with at least one [.md] file, the combined text
    of the Content Validator is the contents of all the [.md] files of the
    directory, taken in ascending order of file name and joined by a blank
    line, whatever the order in which the directory lists them; that text
    is what goes on to normalisation and to the LLM. *)
Theorem directory_pages_sorted_and_joined :
  forall (W : World) (key folder : str) (names : list str)
         (content : str -> str),
    path_is_dir W folder = true ->
    os_listdir W folder = Ok names ->
    existsb ContentValidation.is_md names = true ->
    (forall n, In n names -> ContentValidation.is_md n = true ->
               read_text W (ContentValidation.joinpath folder n)
               = Ok (content n)) ->
    exists files,
      Permutation files (List.filter ContentValidation.is_md names)
      /\ StronglySorted Str.le files
      /\ ContentValidation.combined_text W folder
         = Ok (inr (Str.join [10; 10]%N (List.map content files)))
      /\ ContentValidation.validate_content W key folder
         = ContentValidation.validate_document W key
             (ContentValidation.convert_hijri_to_gregorian W
                (Str.join [10; 10]%N (List.map content files))).
Proof.
  intros W key folder names content Hdir Hlist Hany Hread.
  exists (ContentValidation.sorted (List.filter ContentValidation.is_md names)).
  split; [apply sorted_perm|]. split; [apply sorted_StronglySorted|].
  pose proof (combined_text_directory W folder names content
                Hdir Hlist Hany Hread) as Hc.
  split; [exact Hc|].
  unfold ContentValidation.validate_content. rewrite Hc. reflexivity.
Qed.

(** The sample directory lists [page2.md] before [page1.md]. *)
Lemma directory_pages_sorted_and_joined_witness :
  exists files,
    Permutation files
      (List.filter ContentValidation.is_md ["page2.md"; "notes.txt"; "page1.md"])
    /\ StronglySorted Str.le files
    /\ ContentValidation.combined_text Sample.world "docs"
       = Ok (inr (Str.join [10; 10]%N
                    (List.map
                       (fun n =>
                          if Str.eqb n "page1.md" then "first page"
                          else if Str.eqb n "page2.md" then "second page"
                          else "not markdown")
                       files)))
    /\ ContentValidation.validate_content Sample.world Sample.key "docs"
       = ContentValidation.validate_document Sample.world Sample.key
           (ContentValidation.convert_hijri_to_gregorian Sample.world
              (Str.join [10; 10]%N
                 (List.map
                    (fun n =>
                       if Str.eqb n "page1.md" then "first page"
                       else if Str.eqb n "page2.md" then "second page"
                       else "not markdown")
                    files))).
Proof.
  apply (directory_pages_sorted_and_joined
           Sample.world Sample.key "docs"
           ["page2.md"; "notes.txt"; "page1.md"]).
  - reflexivity.
  - reflexivity.
  - reflexivity.
  - intros n [<- | [<- | [<- | []]]] _; reflexivity.
Defined.

(** A directory holding [page1.md] and [page2.md]: the first page comes
    first, in whichever order the directory lists the two. *)
Lemma two_pages_in_name_order (W : World) (folder c1 c2 : str)
      (names : list str) :
  names = ["page2.md"; "page1.md"] \/ names = ["page1.md"; "page2.md"] ->
  path_is_dir W folder = true ->
  os_listdir W folder = Ok names ->
  read_text W (ContentValidation.joinpath folder "page1.md") = Ok c1 ->
  read_text W (ContentValidation.joinpath folder "page2.md") = Ok c2 ->
  ContentValidation.combined_text W folder = Ok (inr (c1 ++ [10; 10]%N ++ c2)).
Proof.
  intros Hnames Hdir Hlist H1 H2.
  rewrite (combined_text_directory W folder names
             (fun n => if Str.eqb n "page1.md" then c1 else c2)
             Hdir Hlist).
  - destruct Hnames as [-> | ->]; reflexivity.
  - destruct Hnames as [-> | ->]; reflexivity.
  - intros n Hn _.
    destruct Hnames as [-> | ->];
      destruct Hn as [<- | [<- | []]]; assumption.
Qed.

Example sample_directory_combined_text :
  ContentValidation.combined_text Sample.world "docs"
  = Ok (inr ("first page" ++ [10; 10]%N ++ "second page")).
Proof. reflexivity. Qed.

(** ** Calendar normalisation *)

Section RegexFacts.

Variable p : Str.char -> bool.


Lemma firstn_consumed (ds rest : str) :
  firstn (List.length (ds ++ rest) - List.length rest) (ds ++ rest) = ds.
Proof.
  rewrite length_app, Nat.add_sub.
  rewrite firstn_app, Nat.sub_diag, firstn_all. simpl.
  apply app_nil_r.
Qed.




End RegexFacts.

Section ReplaceFacts.




End ReplaceFacts.

Section HijriFacts.

Import ContentValidation.
Variable W : World.

Local Abbreviation no_match := (fun (s' : str) (g : Re.groups) => Some (g, s')).

(** The part of the pattern after the year: optional white space, then
    optionally one of the two Hijri markers. *)
Local Abbreviation marker_part :=
  (Re.Seq (Re.StarClass (is_whitespace W))
          (Re.Optional
             (Re.Group 4 (Re.Alt (Re.Literal "هجري") (Re.Literal "هـ"))))).

(** It always matches, consumes a prefix of the input, and leaves the
    groups of day, month and year as they are. *)
Lemma marker_part_matches (s : str) (g : Re.groups) :
  exists g' taken rest,
    Re.exec marker_part s g no_match = Some (g', rest)
    /\ s = taken ++ rest
    /\ forall i, i <> 4 -> Re.group g' i = Re.group g i.
Proof.
  cbn [Re.exec].
  assert (Hopt : forall s1,
             exists g' taken rest,
               Re.or_else
                 (Re.or_else
                    (if Str.startswith s1 "هجري"
                     then Some ((4, firstn (List.length s1
                                            - List.length (skipn 4 s1)) s1)
                                  :: g, skipn 4 s1)
                     else None)
                    (fun _ =>
                       if Str.startswith s1 "هـ"
                       then Some ((4, firstn (List.length s1
                                              - List.length (skipn 2 s1)) s1)
                                    :: g, skipn 2 s1)
                       else None))
                 (fun _ => Some (g, s1))
               = Some (g', rest)
               /\ s1 = taken ++ rest
               /\ forall i, i <> 4 -> Re.group g' i = Re.group g i).
  { intros s1.
    destruct (Str.startswith s1 "هجري"); [|destruct (Str.startswith s1 "هـ")];
      cbn [Re.or_else].
    - do 3 eexists. split; [reflexivity|]. split.
      + symmetry. apply (firstn_skipn 4).
      + intros i Hi. simpl. destruct i as [|[|[|[|[|i]]]]]; try reflexivity.
        congruence.
    - do 3 eexists. split; [reflexivity|]. split.
      + symmetry. apply (firstn_skipn 2).
      + intros i Hi. simpl. destruct i as [|[|[|[|[|i]]]]]; try reflexivity.
        congruence.
    - exists g, [], s1. repeat split. }
  induction s as [|c s IH]; cbn [Re.m_star_class].
  - apply Hopt.
  - destruct (is_whitespace W c); [|apply Hopt].
    destruct IH as (g' & taken & rest & -> & -> & Hg).
    exists g', (c :: taken), rest. repeat split. exact Hg.
Qed.

Lemma match_at_not_a_digit (s : str) :
  match s with c :: _ => is_decimal W c = false | [] => True end ->
  Re.match_at (hijri_date_pattern W) s = None.
Proof.
  intros Hs. unfold Re.match_at, hijri_date_pattern, digit.
  cbn [Re.exec]. simpl.
  destruct s as [|c s']; simpl; [reflexivity|]. now rewrite Hs.
Qed.

Lemma findall_digit_free (s : str) :
  Spec.digit_free W s = true ->
  forall n, Re.findall_from n (hijri_date_pattern W) s = [].
Proof.
  induction s as [|c s IH]; intros Hs n.
  - cbn [Re.findall_from]. rewrite match_at_not_a_digit by exact I.
    destruct n; reflexivity.
  - simpl in Hs. apply andb_true_iff in Hs. destruct Hs as [Hc Hs].
    apply negb_true_iff in Hc.
    cbn [Re.findall_from]. destruct n as [|n]; [|now apply IH].
    rewrite match_at_not_a_digit by exact Hc. now apply IH.
Qed.



Section OneDate.

Variables day month year post : str.
Hypothesis slash_not_decimal : is_decimal W 47%N = false.
Hypothesis day_digits : Spec.all_digits W day = true.
Hypothesis day_length : 1 <= List.length day <= 2.
Hypothesis month_digits : Spec.all_digits W month = true.
Hypothesis month_length : 1 <= List.length month <= 2.
Hypothesis year_digits : Spec.all_digits W year = true.
Hypothesis year_length : 2 <= List.length year <= 4.
Hypothesis post_digit_free : Spec.digit_free W post = true.



End OneDate.

Lemma int_digits (s : str) :
  Spec.all_digits W s = true ->
  1 <= List.length s ->
  int W s = Ok (Spec.digits_value W s).
Proof.
  intros Hs Hlen. unfold int.
  destruct s as [|c s']; [simpl in Hlen; lia|].
  unfold Spec.all_digits in Hs. now rewrite Hs.
Qed.


End HijriFacts.

(** A match whose conversion raises leaves the text as it is, and the loop
    goes on: when no match of a text converts, the pass returns the text
    unchanged. *)
Lemma normalisation_without_conversion (W : World) (text : str) :
  (forall g,
      In g (Re.findall (ContentValidation.hijri_date_pattern W) text) ->
      exists e, ContentValidation.gregorian_of_match W g = Raise e) ->
  ContentValidation.convert_hijri_to_gregorian W text = text.
Proof.
  unfold ContentValidation.convert_hijri_to_gregorian.
  generalize (Re.findall (ContentValidation.hijri_date_pattern W) text).
  intros matches Hfail. induction matches as [|g matches IH]; [reflexivity|].
  cbn [fold_left].
  assert (Hstep : ContentValidation.convert_match W text g = text).
  { unfold ContentValidation.convert_match.
    destruct (Hfail g (or_introl eq_refl)) as [e ->]. reflexivity. }
  rewrite Hstep. apply IH. intros g' Hg'. apply Hfail. now right.
Qed.


(** A date written with dashes is matched and converts, yet stays. *)
Example dash_date_not_replaced :
  List.length
    (Re.findall (ContentValidation.hijri_date_pattern Sample.world) "15-6-1445")
  = 1
  /\ ContentValidation.convert_hijri_to_gregorian Sample.world "15-6-1445"
     = "15-6-1445"
  /\ Spec.normalize Sample.world "15-6-1445" = "2023-12-28".
Proof. repeat split; vm_compute; reflexivity. Qed.

(** A date with an invalid month stays, and the pass goes on. *)
Example invalid_month_left_unmodified :
  ContentValidation.convert_hijri_to_gregorian
    Sample.world "31/13/9999 هـ, 15/6/1445"
  = "31/13/9999 هـ, 2023-12-28".
Proof. vm_compute. reflexivity. Qed.



Example sample_report_normalised :
  ContentValidation.convert_hijri_to_gregorian Sample.world "Date: 15/6/1445 هـ"
  = "Date: 2023-12-28 هـ".
Proof. vm_compute. reflexivity. Qed.

(* ===================================================================== *)
(** * Further properties of the code                                      *)
(* ===================================================================== *)

(** ** The run as a whole *)

(** X1.  A run never raises, whatever the world does: it ends in a state
    that holds the request unchanged (the path stripped of surrounding
    white space) and, each in its own field, the verdicts of the two
    stage wrappers for that path; the authenticity stage is run on the
    same path whatever the content stage returned. *)
Theorem run_never_raises :
  forall (W : World) (key input_path : str),
    exists st,
      Supervisor.run_document_validation W key input_path = Ok st
      /\ Supervisor.input_path st = ContentValidation.strip W input_path
      /\ Supervisor.api_key st = key
      /\ Supervisor.content_validation_result st
         = Supervisor.run_content_validation
             W key (ContentValidation.strip W input_path)
      /\ Supervisor.authentication_validation_result st
         = Supervisor.run_authentication_validation
             W key (ContentValidation.strip W input_path).
Proof.
  intros W key input_path. unfold Supervisor.run_document_validation.
  destruct (invoke_spec W key (Supervisor.initial_state W key input_path))
    as (cv & av & Hc & Ha & _ & _ & ->).
  eexists. split; [reflexivity|].
  cbn [Supervisor.input_path Supervisor.api_key
       Supervisor.content_validation_result
       Supervisor.authentication_validation_result
       Supervisor.initial_state] in *.
  rewrite Hc, Ha. repeat split.
Qed.

(** A truthy value found by [get] was found under the key, so that a
    default plays no part. *)
Lemma get_or_truthy (d : dict) (k : str) (r default : value) :
  Py.get d k = r -> Py.truthy r = true -> Py.get_or d k default = r.
Proof.
  unfold Py.get, Py.get_or. destruct (Py.lookup d k); [trivial|].
  intros <-. discriminate.
Qed.

(** [decision_node] by itself is not total: on a state whose content
    verdict says "success" and carries a truthy result that is not a
    dict, the [.get] of the third conjunct raises. *)
Section DecisionEdge.

Import Supervisor.

(** X2.  On a state whose content verdict has status "success" and a
    truthy result that is not a dict, [decision_node] raises the
    AttributeError of calling [get] on that result. *)
Theorem decision_node_rejects_non_dict_result :
  forall (st : ValidationState) (r : value),
    Py.get (content_validation_result st) "status" = VStr "success" ->
    Py.get (content_validation_result st) "result" = r ->
    Py.truthy r = true ->
    (forall d, r <> VDict d) ->
    decision_node st = Raise (Py.AttributeError r "get").
Proof.
  intros st r Hs Hr Ht Hnd. unfold decision_node, validity.
  rewrite Hs. cbn [Py.eq_str Str.eqb N.eqb Pos.eqb andb Py.truthy negb].
  rewrite (get_or_truthy _ _ r (VDict []) Hr Ht).
  rewrite Hr, Ht. cbn [negb].
  destruct r; try reflexivity. exfalso. now apply (Hnd d).
Qed.

End DecisionEdge.

Lemma decision_node_rejects_non_dict_result_witness :
  Supervisor.decision_node
    {| Supervisor.input_path := "report.pdf";
       Supervisor.api_key := "secret";
       Supervisor.content_validation_result :=
         [("status", VStr "success"); ("result", VStr "validated")];
       Supervisor.authentication_validation_result := [];
       Supervisor.final_decision := [];
       Supervisor.reasoning := [] |}
  = Raise (Py.AttributeError (VStr "validated") "get").
Proof.
  apply decision_node_rejects_non_dict_result.
  - reflexivity.
  - reflexivity.
  - reflexivity.
  - intros d H. discriminate H.
Defined.

(** ** The authenticity stage, beyond the validity rule *)

Section AuthenticityMore.

Import AuthenticityValidation.

(** X3.  The signature flag is set exactly when some page reports a
    signature and every page before it was checked without error and
    found unsigned: an exception on a page ends the check, and hides the
    signatures of the pages after it. *)
Theorem scan_signatures_first_signed_page :
  forall pages : list (result bool),
    scan_signatures pages = true
    <-> exists before after,
        pages = before ++ Ok true :: after
        /\ forallb Facts.unsigned_page before = true.
Proof.
  induction pages as [|p pages IH].
  - split; [discriminate|]. intros (b & a & H & _).
    destruct b; discriminate H.
  - destruct p as [[|]|e]; cbn [scan_signatures].
    + split; [|reflexivity]. intros _. exists [], pages. split; reflexivity.
    + rewrite IH. split.
      * intros (b & a & -> & Hb). exists (Ok false :: b), a.
        split; [reflexivity|exact Hb].
      * intros (b & a & H & Hb). destruct b as [|q b].
        -- discriminate H.
        -- injection H as <- ->. exists b, a. split; [reflexivity|].
           simpl in Hb. exact Hb.
    + split; [discriminate|]. intros (b & a & H & Hb).
      destruct b as [|q b]; [discriminate H|].
      injection H as <- _. discriminate Hb.
Qed.

(** X4.  What the signature check finds never changes the status: two
    documents that differ only in the signature findings of their pages
    get the same status, or fail with the same exception. *)
Theorem status_ignores_signatures :
  forall (pdf : PdfDocument) (pages : list (result bool)),
    List.length pages = List.length (page_has_signature pdf) ->
    Facts.status_of (inspect (Facts.with_signatures pdf pages))
    = Facts.status_of (inspect pdf).
Proof.
  intros pdf pages Hlen. unfold Facts.status_of, inspect.
  cbn [Facts.with_signatures get_metadata is_encrypted page_has_signature].
  destruct (get_metadata pdf) as [md|e]; [|reflexivity].
  destruct (is_encrypted pdf) as [enc|e]; [|reflexivity].
  cbn [Py.bind]. rewrite Hlen.
  destruct (Nat.ltb (List.length (page_has_signature pdf)) 1);
    [reflexivity|].
  destruct (scan_signatures pages), (scan_signatures (page_has_signature pdf)),
    enc; reflexivity.
Qed.

Variable W : World.

(** X5.  An exception of the existence test, of the opening, of the
    metadata or of the encryption flag does not leave the validator: it
    comes back as a "not validated" verdict whose reason is "Error during
    authentication: " followed by the text of the exception. *)
Theorem inspection_failure_is_a_verdict :
  forall (api_key pdf_path : str) (e : exn),
    Facts.inspection_fails W pdf_path e ->
    validate_authentication W api_key pdf_path
    = Ok [("status", VStr "success");
          ("result",
           VDict [("status", VStr "not validated");
                  ("reason",
                   VStr ("Error during authentication: " ++ exn_str e));
                  ("metadata", VDict []);
                  ("has_signature", VBool false);
                  ("is_encrypted", VBool false)]);
          ("message", VStr "Authentication Validation: NOT VALIDATED")].
Proof.
  intros api_key pdf_path e Hfail.
  unfold validate_authentication, authenticate_pdf.
  destruct Hfail as [-> | (-> & [-> | (pdf & -> & Hcl & Hin)])];
    try reflexivity.
  unfold inspect. rewrite Hcl.
  destruct Hin as [-> | (md & -> & ->)]; reflexivity.
Qed.

(** X6.  The flags [has_signature] and [is_encrypted] at the top of the
    authenticity result are always false: for an inspected document the
    findings are under [metadata], with the page count, where the
    validator does not look for them. *)
Theorem top_level_flags_always_false :
  forall (api_key pdf_path : str) (n : nat) (signed encrypted : bool),
    Spec.inspection_of W pdf_path = Some (Spec.Inspected n signed encrypted) ->
    exists inner metadata message,
      validate_authentication W api_key pdf_path
      = Ok [("status", VStr "success");
            ("result", VDict inner);
            ("message", VStr message)]
      /\ Py.get inner "has_signature" = VBool false
      /\ Py.get inner "is_encrypted" = VBool false
      /\ Py.get inner "metadata" = VDict metadata
      /\ Py.get metadata "has_signature" = VBool signed
      /\ Py.get metadata "is_encrypted" = VBool encrypted
      /\ Py.get metadata "total_pages" = VInt (Z.of_nat n).
Proof.
  intros api_key pdf_path n signed encrypted Hi.
  unfold Spec.inspection_of in Hi.
  unfold validate_authentication, authenticate_pdf.
  destruct (path_exists W pdf_path) as [[|]|e0]; try discriminate Hi.
  destruct (pdfium_open W pdf_path) as [pdf|e1]; try discriminate Hi.
  unfold inspect.
  destruct (get_metadata pdf) as [md|e2]; try discriminate Hi.
  destruct (is_encrypted pdf) as [enc|e3]; try discriminate Hi.
  destruct (close pdf) as [[]|e4]; try discriminate Hi.
  injection Hi as <- <- <-. cbn [Py.bind].
  destruct (Nat.ltb (List.length (page_has_signature pdf)) 1);
    [do 3 eexists; repeat split|].
  destruct (scan_signatures (page_has_signature pdf)), enc;
    do 3 eexists; repeat split.
Qed.

(** The authenticity stage says "validated" exactly for a file that
    exists, opens, has a page, is not encrypted, and whose inspection
    raises nowhere. *)
Lemma authenticate_pdf_validated_iff (pdf_path : str) :
  (exists d, authenticate_pdf W pdf_path = Ok d
             /\ Py.get d "status" = VStr "validated")
  <-> Facts.passes_authenticity W pdf_path.
Proof.
  unfold Facts.passes_authenticity, authenticate_pdf. split.
  - intros (d & Hd & Hs).
    destruct (path_exists W pdf_path) as [[|]|e0];
      try (injection Hd as <-; discriminate Hs).
    split; [reflexivity|].
    destruct (pdfium_open W pdf_path) as [pdf|e1];
      try (injection Hd as <-; discriminate Hs).
    unfold inspect in Hd.
    destruct (close pdf) as [[]|] eqn:Hcl.
    2: { destruct (get_metadata pdf); [destruct (is_encrypted pdf)|];
         discriminate Hd. }
    destruct (get_metadata pdf) as [md|e2] eqn:Hmd; cbn [Py.bind] in Hd;
      [|injection Hd as <-; discriminate Hs].
    destruct (is_encrypted pdf) as [enc|e3] eqn:Henc; cbn [Py.bind] in Hd;
      [|injection Hd as <-; discriminate Hs].
    injection Hd as <-.
    exists pdf, md. split; [reflexivity|]. split; [exact Hmd|].
    destruct (page_has_signature pdf) as [|p ps];
      [cbn in Hs; discriminate Hs|].
    cbn [List.length Nat.ltb Nat.leb] in Hs.
    destruct (scan_signatures (p :: ps)), enc; cbn in Hs;
      try discriminate Hs;
      (split; [exact Henc|]; split; [discriminate|exact Hcl]).
  - intros (-> & pdf & md & -> & Hmd & Henc & Hpages & Hcl).
    unfold inspect. rewrite Hmd, Henc, Hcl. cbn [Py.bind].
    destruct (page_has_signature pdf) as [|p ps]; [congruence|].
    cbn [List.length Nat.ltb Nat.leb].
    destruct (scan_signatures (p :: ps)); eexists; split; reflexivity.
Qed.

End AuthenticityMore.

(** The directory [docs] of the sample world exists, and is no PDF. *)
Lemma inspection_failure_is_a_verdict_witness :
  AuthenticityValidation.validate_authentication
    Sample.world Sample.key "docs"
  = Ok [("status", VStr "success");
        ("result",
         VDict [("status", VStr "not validated");
                ("reason",
                 VStr "Error during authentication: Failed to load document");
                ("metadata", VDict []);
                ("has_signature", VBool false);
                ("is_encrypted", VBool false)]);
        ("message", VStr "Authentication Validation: NOT VALIDATED")].
Proof.
  apply (inspection_failure_is_a_verdict
           Sample.world Sample.key "docs"
           (Exception "Failed to load document")).
  right. split; [reflexivity|]. left. reflexivity.
Defined.

(** The sample PDF is signed and encrypted; the top-level flags say
    neither. *)
Lemma top_level_flags_always_false_witness :
  exists inner metadata message,
    AuthenticityValidation.validate_authentication
      Sample.world Sample.key "scan.pdf"
    = Ok [("status", VStr "success");
          ("result", VDict inner);
          ("message", VStr message)]
    /\ Py.get inner "has_signature" = VBool false
    /\ Py.get inner "is_encrypted" = VBool false
    /\ Py.get inner "metadata" = VDict metadata
    /\ Py.get metadata "has_signature" = VBool true
    /\ Py.get metadata "is_encrypted" = VBool true
    /\ Py.get metadata "total_pages" = VInt 2.
Proof.
  apply (top_level_flags_always_false
           Sample.world Sample.key "scan.pdf" 2 true true).
  reflexivity.
Defined.

Lemma status_ignores_signatures_witness :
  Facts.status_of
    (AuthenticityValidation.inspect
       (Facts.with_signatures GoodSample.report_pdf [Ok true]))
  = Facts.status_of (AuthenticityValidation.inspect GoodSample.report_pdf).
Proof.
  apply (status_ignores_signatures GoodSample.report_pdf [Ok true]).
  reflexivity.
Defined.

(** ** When a document is declared valid *)

Section ValidExactly.

Variable W : World.

Lemma eq_str_true (v : value) (s : str) :
  Py.eq_str v s = true <-> v = VStr s.
Proof.
  destruct v; simpl; try (split; [discriminate | intros H; discriminate H]).
  rewrite str_eqb_eq. split; [now intros -> | now intros [= ->]].
Qed.

Lemma authenticate_pdf_status (pdf_path : str) (d : dict) :
  AuthenticityValidation.authenticate_pdf W pdf_path = Ok d ->
  Py.get d "status" = VStr "validated"
  \/ Py.get d "status" = VStr "not validated".
Proof.
  unfold AuthenticityValidation.authenticate_pdf.
  destruct (path_exists W pdf_path) as [[|]|e0];
    try (intros [= <-]; right; reflexivity).
  destruct (pdfium_open W pdf_path) as [pdf|e1];
    try (intros [= <-]; right; reflexivity).
  destruct (close pdf) as [[]|]; [|discriminate].
  cbn [Py.bind]. unfold AuthenticityValidation.inspect.
  destruct (get_metadata pdf) as [md|e2];
    try (intros [= <-]; right; reflexivity).
  destruct (is_encrypted pdf) as [enc|e3];
    try (intros [= <-]; right; reflexivity).
  cbn [Py.bind].
  destruct (Nat.ltb (List.length (page_has_signature pdf)) 1);
    [intros [= <-]; right; reflexivity|].
  destruct (AuthenticityValidation.scan_signatures (page_has_signature pdf)),
    enc; intros [= <-]; (left; reflexivity) || (right; reflexivity).
Qed.

Lemma validate_authentication_validated_iff (key pdf_path : str) :
  (exists inner message,
      AuthenticityValidation.validate_authentication W key pdf_path
      = Ok [("status", VStr "success");
            ("result", VDict inner);
            ("message", VStr message)]
      /\ Py.get inner "status" = VStr "validated")
  <-> Facts.passes_authenticity W pdf_path.
Proof.
  rewrite <- authenticate_pdf_validated_iff. split.
  - intros (inner & message & Hv & Hs).
    unfold AuthenticityValidation.validate_authentication in Hv.
    destruct (AuthenticityValidation.authenticate_pdf W pdf_path)
      as [d|e] eqn:Hd; [|discriminate Hv].
    exists d. split; [reflexivity|].
    destruct (authenticate_pdf_status pdf_path d Hd) as [H|H]; [exact H|].
    cbn [Py.bind] in Hv. rewrite H in Hv. cbn in Hv.
    injection Hv as <- _. discriminate Hs.
  - intros (d & Hd & Hs).
    unfold AuthenticityValidation.validate_authentication.
    rewrite Hd. cbn [Py.bind]. rewrite Hs. cbn.
    do 2 eexists. split; reflexivity.
Qed.

(** The wrapper of the content stage, with what the validator did. *)
Lemma run_content_validation_outcome (key input_path : str) :
  (exists inner,
      ContentValidation.validate_content W key input_path = Ok (VDict inner)
      /\ Supervisor.run_content_validation W key input_path
         = Spec.encode
             {| Spec.status := "success";
                Spec.result := Some inner;
                Spec.message :=
                  "Content Validation: "
                    ++ Supervisor.format W
                         (Py.get_or inner "status" (VStr "unknown")) |})
  \/ ((forall inner,
          ContentValidation.validate_content W key input_path
          <> Ok (VDict inner))
      /\ exists e,
          Supervisor.run_content_validation W key input_path
          = Spec.encode
              {| Spec.status := "error";
                 Spec.result := None;
                 Spec.message :=
                   "Content Validation Error: " ++ exn_str e |}).
Proof.
  unfold Supervisor.run_content_validation.
  destruct (ContentValidation.validate_content W key input_path)
    as [[ | | | | |l|d]|e]; cbn [Py.bind Py.call_get];
    try (right; split; [discriminate | eexists; reflexivity]).
  left. eexists; split; reflexivity.
Qed.

End ValidExactly.

(** X7.  A run declares the document VALID exactly when the content
    validator returns a dict whose status is the string "validated" and
    the file exists, opens, has at least one page, is not encrypted, and
    is inspected and closed without an exception. *)
Theorem valid_exactly_when_both_pass :
  forall (W : World) (key input_path : str),
    exists st,
      Supervisor.run_document_validation W key input_path = Ok st
      /\ (Supervisor.final_decision st = Spec.decision_text Spec.VALID
          <-> Facts.passes_content
                W key (ContentValidation.strip W input_path)
              /\ Facts.passes_authenticity
                   W (ContentValidation.strip W input_path)).
Proof.
  intros W key input_path. unfold Supervisor.run_document_validation.
  set (st0 := Supervisor.initial_state W key input_path).
  set (p := ContentValidation.strip W input_path).
  assert (Hp : Supervisor.input_path st0 = p) by reflexivity.
  assert (Hc : exists cv,
             Supervisor.run_content_validation W key p = Spec.encode cv
             /\ (Spec.is_valid cv = true <-> Facts.passes_content W key p)).
  { destruct (run_content_validation_outcome W key p)
      as [(inner & Hv & ->) | (Hv & e & ->)];
      eexists; (split; [reflexivity|]); unfold Spec.is_valid; cbn.
    - rewrite eq_str_true. unfold Facts.passes_content. rewrite Hv. split.
      + intros Hs. exists inner. split; [reflexivity | exact Hs].
      + intros (v & [= <-] & Hs). exact Hs.
    - split; [discriminate|]. intros (v & Hv' & _). now apply Hv in Hv'. }
  assert (Ha : exists av,
             Supervisor.run_authentication_validation W key p = Spec.encode av
             /\ (Spec.is_valid av = true <-> Facts.passes_authenticity W p)).
  { destruct (run_authentication_validation_cases W key p)
      as [(inner & status & Hv & Hs & _ & ->) | (e & Hv & ->)];
      eexists; (split; [reflexivity|]);
      rewrite <- (validate_authentication_validated_iff W key p);
      unfold Spec.is_valid; cbn [Spec.status Spec.result].
    - rewrite str_eqb_refl. cbn [andb].
      rewrite Hs, eq_str_true. rewrite Hv. split.
      + intros Hst. do 2 eexists. split; [reflexivity|].
        rewrite Hs. exact Hst.
      + intros (i & m & [= <-] & Hs'). rewrite Hs in Hs'. exact Hs'.
    - split; [discriminate|]. rewrite Hv. intros (i & m & Hv' & _).
      discriminate Hv'. }
  destruct Hc as (cv & Hc & Hcv). destruct Ha as (av & Ha & Hav).
  rewrite <- Hp in Hc, Ha.
  rewrite (invoke_with W key st0 cv av Hc Ha).
  eexists. split; [reflexivity|]. cbn [Supervisor.final_decision].
  rewrite <- Hcv, <- Hav. split.
  - intros H. apply decision_text_injective in H.
    destruct (Spec.is_valid cv), (Spec.is_valid av);
      try discriminate H; split; reflexivity.
  - intros [-> ->]. reflexivity.
Qed.

Example good_sample_is_valid :
  exists st,
    Supervisor.run_document_validation GoodSample.world "k" " report.pdf" = Ok st
    /\ Supervisor.final_decision st = Spec.decision_text Spec.VALID
    /\ Supervisor.reasoning st
       = "Content validation: success | Authenticity validation: success | Final decision: "
           ++ Spec.decision_text Spec.VALID.
Proof. eexists. split; [vm_compute; reflexivity|]. split; reflexivity. Qed.

(** ** The content stage: where its text comes from, and how it fails *)

Section ContentMore.

Import ContentValidation.
Variable W : World.




(** X10.  A directory that cannot be listed is no markdown directory and
    no file either: the exception of the listing leaves the validator and
    becomes the "error" verdict of the wrapper. *)
Theorem unlistable_directory_is_an_error :
  forall (key input_path : str) (e : exn),
    path_is_dir W input_path = true ->
    os_listdir W input_path = Raise e ->
    validate_content W key input_path = Raise e
    /\ Supervisor.run_content_validation W key input_path
       = [("status", VStr "error");
          ("result", VNone);
          ("message", VStr ("Content Validation Error: " ++ exn_str e))].
Proof.
  intros key input_path e Hdir Hlist.
  assert (Hv : validate_content W key input_path = Raise e).
  { unfold validate_content, combined_text. rewrite Hdir, Hlist.
    reflexivity. }
  split; [exact Hv|].
  unfold Supervisor.run_content_validation. now rewrite Hv.
Qed.

(** X11.  When the call to the LLM raises, the content stage ends in the
    "error" verdict with no result and the text of the exception, and the
    run goes on to a decision that is MANUAL REVIEW (failed content) or
    INVALID. *)
Theorem llm_failure_is_an_error_verdict :
  forall (key input_path text : str) (e : exn),
    combined_text W (strip W input_path) = Ok (inr text) ->
    chat_completion W key
      (prompt_head ++ convert_hijri_to_gregorian W text ++ prompt_tail)
    = Raise e ->
    exists st,
      Supervisor.run_document_validation W key input_path = Ok st
      /\ Supervisor.content_validation_result st
         = [("status", VStr "error");
            ("result", VNone);
            ("message", VStr ("Content Validation Error: " ++ exn_str e))]
      /\ (Supervisor.final_decision st
          = Spec.decision_text Spec.MANUAL_REVIEW_FAILED_CONTENT
          \/ Supervisor.final_decision st
             = Spec.decision_text Spec.INVALID).
Proof.
  intros key input_path text e Htext Hask.
  unfold Supervisor.run_document_validation.
  set (st0 := Supervisor.initial_state W key input_path).
  destruct (authentication_validation_node_spec W key st0)
    as (av & Ha & _ & _).
  assert (Hc : Supervisor.run_content_validation W key
                 (Supervisor.input_path st0)
               = Spec.encode
                   {| Spec.status := "error";
                      Spec.result := None;
                      Spec.message :=
                        "Content Validation Error: " ++ exn_str e |}).
  { unfold Supervisor.run_content_validation, validate_content. subst st0.
    cbn [Supervisor.initial_state Supervisor.input_path].
    rewrite Htext. cbn [Py.bind]. unfold validate_document, ask.
    rewrite Hask. reflexivity. }
  rewrite (invoke_with W key st0 _ _ Hc Ha).
  eexists. split; [reflexivity|]. split; [reflexivity|].
  cbn [Supervisor.final_decision].
  change (Spec.is_valid _) with false at 1.
  destruct (Spec.is_valid av); [left | right]; reflexivity.
Qed.

(** X12.  A completion that is valid JSON but no object (a list, a
    string, a number, [null]) is returned by [validate_document] as it
    is, and the content stage ends in the "error" verdict: the message is
    that of the failed [get] on that value. *)
Theorem non_object_json_is_an_error_verdict :
  forall (key input_path text completion : str) (v : value),
    combined_text W input_path = Ok (inr text) ->
    chat_completion W key
      (prompt_head ++ convert_hijri_to_gregorian W text ++ prompt_tail)
    = Ok completion ->
    json_loads W (strip W completion) = Ok v ->
    (forall d, v <> VDict d) ->
    validate_content W key input_path = Ok v
    /\ Supervisor.run_content_validation W key input_path
       = [("status", VStr "error");
          ("result", VNone);
          ("message",
           VStr ("Content Validation Error: '" ++ Py.type_name v
                   ++ "' object has no attribute 'get'"))].
Proof.
  intros key input_path text completion v Htext Hask Hjson Hnd.
  assert (Hv : validate_content W key input_path = Ok v).
  { unfold validate_content. rewrite Htext. cbn [Py.bind].
    unfold validate_document, ask. rewrite Hask. cbn [Py.bind].
    rewrite Hjson. reflexivity. }
  split; [exact Hv|].
  unfold Supervisor.run_content_validation. rewrite Hv. cbn [Py.bind].
  destruct v; try reflexivity. exfalso. now apply (Hnd d).
Qed.

End ContentMore.



(** The letter case of the suffix does not matter. *)
Example suffix_letter_case :
  Str.lower (ContentValidation.path_suffix "scans/REPORT.Md") = ".md".
Proof. reflexivity. Qed.

Lemma unlistable_directory_is_an_error_witness :
  Supervisor.run_content_validation FaultySample.world "k" "vault"
  = [("status", VStr "error");
     ("result", VNone);
     ("message", VStr "Content Validation Error: Permission denied")].
Proof.
  apply (unlistable_directory_is_an_error
           FaultySample.world "k" "vault" (Exception "Permission denied"));
    reflexivity.
Defined.

Lemma llm_failure_is_an_error_verdict_witness :
  exists st,
    Supervisor.run_document_validation FaultySample.world "expired" "note.md"
    = Ok st
    /\ Supervisor.content_validation_result st
       = [("status", VStr "error");
          ("result", VNone);
          ("message",
           VStr "Content Validation Error: 401 Client Error: Unauthorized")]
    /\ (Supervisor.final_decision st
        = Spec.decision_text Spec.MANUAL_REVIEW_FAILED_CONTENT
        \/ Supervisor.final_decision st = Spec.decision_text Spec.INVALID).
Proof.
  apply (llm_failure_is_an_error_verdict
           FaultySample.world "expired" "note.md" "Referral, 1 page"
           (Exception "401 Client Error: Unauthorized"));
    reflexivity.
Defined.

Lemma non_object_json_is_an_error_verdict_witness :
  Supervisor.run_content_validation FaultySample.world "k" "note.md"
  = [("status", VStr "error");
     ("result", VNone);
     ("message",
      VStr "Content Validation Error: 'list' object has no attribute 'get'")].
Proof.
  apply (non_object_json_is_an_error_verdict
           FaultySample.world "k" "note.md" "Referral, 1 page" "[]" (VList [])).
  - reflexivity.
  - reflexivity.
  - reflexivity.
  - intros d H. discriminate H.
Defined.

(** ** The calendar pass: what it cannot change, and what it captures *)

Section ReplaceAbsent.

Lemma startswith_prefix (s old : str) :
  Str.startswith s old = true -> exists r, s = old ++ r.
Proof.
  revert s. induction old as [|y old IH]; intros s H.
  - exists s. reflexivity.
  - destruct s as [|x s]; [discriminate H|].
    simpl in H. apply andb_true_iff in H. destruct H as [Hxy Hs].
    apply N.eqb_eq in Hxy. subst y.
    destruct (IH s Hs) as [r ->]. exists r. reflexivity.
Qed.

Lemma contains_app (c : Str.char) (a b : str) :
  Facts.contains c (a ++ b) = Facts.contains c a || Facts.contains c b.
Proof. apply existsb_app. Qed.

(** A string to replace that has a character the text lacks does not
    occur in the text. *)
Lemma replace_absent (c : Str.char) (s old new : str) :
  Facts.contains c old = true ->
  Facts.contains c s = false ->
  Str.replace s old new = s.
Proof.
  intros Hold Hs. unfold Str.replace.
  destruct old as [|o old']; [discriminate Hold|].
  induction s as [|x s IH]; [reflexivity|].
  cbn [Str.replace_from].
  destruct (Str.startswith (x :: s) (o :: old')) eqn:Hst.
  - apply startswith_prefix in Hst. destruct Hst as [r Hr].
    rewrite Hr, contains_app, Hold in Hs. discriminate Hs.
  - f_equal. apply IH. simpl in Hs. apply orb_false_iff in Hs. apply Hs.
Qed.

End ReplaceAbsent.

(** X13.  A text without a slash comes back unchanged, whatever it holds
    and whatever the converter does: the string that is looked for is
    always the date rebuilt with slashes, so that dates written with
    dashes, which the pattern matches, are never converted.  So does a
    text without any decimal digit. *)
Theorem text_without_slash_or_digit_unchanged :
  forall (W : World) (text : str),
    Facts.contains 47%N text = false \/ Spec.digit_free W text = true ->
    ContentValidation.convert_hijri_to_gregorian W text = text.
Proof.
  intros W text [Hslash | Hdigits];
    unfold ContentValidation.convert_hijri_to_gregorian.
  - generalize (Re.findall (ContentValidation.hijri_date_pattern W) text).
    intros matches. induction matches as [|g matches IH]; [reflexivity|].
    cbn [fold_left].
    assert (Hstep : ContentValidation.convert_match W text g = text).
    { unfold ContentValidation.convert_match.
      destruct (ContentValidation.gregorian_of_match W g); [|reflexivity].
      apply (replace_absent 47%N); [|exact Hslash].
      rewrite !contains_app. cbn. now rewrite orb_true_r. }
    rewrite Hstep. exact IH.
  - unfold Re.findall. now rewrite findall_digit_free.
Qed.

Lemma text_without_slash_or_digit_unchanged_witness :
  ContentValidation.convert_hijri_to_gregorian
    Sample.world "Seen on 15-6-1445 هـ"
  = "Seen on 15-6-1445 هـ".
Proof.
  apply text_without_slash_or_digit_unchanged. left. reflexivity.
Defined.

Section CapturedGroups.

Variable p : Str.char -> bool.

Lemma m_repeat_class_inv (lo : nat) (k : Re.cont) (m : Re.groups * str) :
  forall (left done : nat) (s : str) (g : Re.groups),
    Re.m_repeat (Re.m_class p) lo left done s g k = Some m ->
    exists ds rest,
      s = ds ++ rest
      /\ forallb p ds = true
      /\ List.length ds <= left
      /\ lo <= done + List.length ds
      /\ k rest g = Some m.
Proof.
  induction left as [|left IH]; intros done s g H; cbn [Re.m_repeat] in H.
  - destruct (Nat.leb lo done) eqn:Hlo; [|discriminate H].
    apply Nat.leb_le in Hlo. exists [], s. simpl. repeat split; auto; lia.
  - unfold Re.or_else in H.
    destruct (Re.m_class p s g
                (fun s1 g1 => Re.m_repeat (Re.m_class p) lo left (S done) s1 g1 k))
      as [m'|] eqn:Hbody.
    + injection H as ->. unfold Re.m_class in Hbody.
      destruct s as [|c s']; [discriminate Hbody|].
      destruct (p c) eqn:Hc; [|discriminate Hbody].
      destruct (IH _ _ _ Hbody) as (ds & rest & -> & Hds & Hlen & Hlo & Hk).
      exists (c :: ds), rest. simpl. rewrite Hc, Hds.
      repeat split; auto; lia.
    + destruct (Nat.leb lo done) eqn:Hlo; [|discriminate H].
      apply Nat.leb_le in Hlo. exists [], s. simpl. repeat split; auto; lia.
Qed.

Lemma exec_group_run_inv (i lo hi : nat) (R : Re.regex) (k : Re.cont)
      (s : str) (g : Re.groups) (m : Re.groups * str) :
  Re.exec (Re.Seq (Re.Group i (Re.Repeat (Re.Class p) lo hi)) R) s g k
  = Some m ->
  exists ds rest,
    s = ds ++ rest
    /\ forallb p ds = true
    /\ lo <= List.length ds <= hi
    /\ Re.exec R rest ((i, ds) :: g) k = Some m.
Proof.
  intros H. cbn [Re.exec] in H.
  apply m_repeat_class_inv in H.
  destruct H as (ds & rest & -> & Hds & Hlen & Hlo & Hk).
  rewrite firstn_consumed in Hk.
  exists ds, rest. repeat split; auto.
Qed.

End CapturedGroups.

Section CapturedDates.

Import ContentValidation.
Variable W : World.

Lemma exec_slash_inv (R : Re.regex) (s : str) (g : Re.groups) (k : Re.cont)
      (m : Re.groups * str) :
  Re.exec (Re.Seq slash_or_dash R) s g k = Some m ->
  exists rest, Re.exec R rest g k = Some m.
Proof.
  unfold slash_or_dash. cbn [Re.exec]. unfold Re.m_class.
  destruct s as [|c s]; [discriminate|].
  destruct ((c =? 47)%N || (c =? 45)%N); [eauto | discriminate].
Qed.

Lemma match_at_groups (s rest : str) (g : Re.groups) :
  Re.match_at (hijri_date_pattern W) s = Some (g, rest) ->
  (Spec.all_digits W (Re.group g 1) = true
   /\ 1 <= List.length (Re.group g 1) <= 2)
  /\ (Spec.all_digits W (Re.group g 2) = true
      /\ 1 <= List.length (Re.group g 2) <= 2)
  /\ (Spec.all_digits W (Re.group g 3) = true
      /\ 2 <= List.length (Re.group g 3) <= 4).
Proof.
  unfold Re.match_at, hijri_date_pattern, digit. intros H.
  apply exec_group_run_inv in H.
  destruct H as (day & r1 & _ & Hd & Hdl & H).
  apply exec_slash_inv in H. destruct H as (r2 & H).
  apply exec_group_run_inv in H.
  destruct H as (month & r3 & _ & Hm & Hml & H).
  apply exec_slash_inv in H. destruct H as (r4 & H).
  apply exec_group_run_inv in H.
  destruct H as (year & r5 & _ & Hy & Hyl & H).
  destruct (marker_part_matches W r5 [(3, year); (2, month); (1, day)])
    as (g' & taken & rest' & Hm' & _ & Hg).
  pose proof (eq_trans (eq_sym H) Hm') as E. injection E as -> _.
  rewrite !Hg by discriminate. cbn [Re.group Nat.eqb].
  repeat split; assumption || lia.
Qed.

Lemma findall_from_in (r : Re.regex) :
  forall (s : str) (n : nat) (g : Re.groups),
    In g (Re.findall_from n r s) ->
    exists s' rest, Re.match_at r s' = Some (g, rest).
Proof.
  induction s as [|c s IH]; intros n g Hin; cbn [Re.findall_from] in Hin.
  - destruct n; [|destruct Hin].
    destruct (Re.match_at r []) as [[g0 rest]|] eqn:Hm; [|destruct Hin].
    destruct Hin as [<- | []]. eauto.
  - destruct n as [|n]; [|now apply (IH n)].
    destruct (Re.match_at r (c :: s)) as [[g0 rest]|] eqn:Hm.
    + destruct Hin as [<- | Hin]; [eauto | now apply IH in Hin].
    + now apply IH in Hin.
Qed.

End CapturedDates.

(** X14.  In every match the pass finds, in any text, the day and the
    month are one or two decimal digits and the year two to four: [int]
    never raises on them, and the conversion of a match fails only inside
    the Hijri converter, called with the year, month and day those digits
    denote. *)
Theorem captured_groups_are_numbers :
  forall (W : World) (text : str) (g : Re.groups),
    In g (Re.findall (ContentValidation.hijri_date_pattern W) text) ->
    (Spec.all_digits W (Re.group g 1) = true
     /\ 1 <= List.length (Re.group g 1) <= 2)
    /\ (Spec.all_digits W (Re.group g 2) = true
        /\ 1 <= List.length (Re.group g 2) <= 2)
    /\ (Spec.all_digits W (Re.group g 3) = true
        /\ 2 <= List.length (Re.group g 3) <= 4)
    /\ ContentValidation.gregorian_of_match W g
       = hijri_to_gregorian W (Spec.digits_value W (Re.group g 3))
                              (Spec.digits_value W (Re.group g 2))
                              (Spec.digits_value W (Re.group g 1)).
Proof.
  intros W text g Hin.
  apply findall_from_in in Hin. destruct Hin as (s' & rest & Hm).
  destruct (match_at_groups W s' rest g Hm)
    as ((Hd & Hdl) & (Hmo & Hml) & (Hy & Hyl)).
  repeat split; try assumption; try lia.
  unfold ContentValidation.gregorian_of_match.
  rewrite (int_digits W _ Hy) by lia.
  rewrite (int_digits W _ Hmo) by lia.
  rewrite (int_digits W _ Hd) by lia.
  reflexivity.
Qed.

Lemma captured_groups_are_numbers_witness :
  ContentValidation.gregorian_of_match Sample.world
    [(3, "9999"); (2, "13"); (1, "31")]
  = hijri_to_gregorian Sample.world 9999 13 31.
Proof.
  apply (captured_groups_are_numbers
           Sample.world "31/13/9999" [(3, "9999"); (2, "13"); (1, "31")]).
  left. reflexivity.
Defined.

(** ** [ocr_to_markdown] *)

Section OcrFacts.

Import OcrMarkdown.
Variable W : World.

Lemma text_entries_filter (lines : list TextLine) (acc : list str) :
  text_entries W acc lines
  = acc ++ List.map (Facts.line_entry W) (List.filter (Facts.kept_line W) lines).
Proof.
  unfold text_entries. revert acc.
  induction lines as [|l lines IH]; intros acc; cbn [fold_left filter].
  - cbn. now rewrite app_nil_r.
  - rewrite IH. unfold Facts.kept_line.
    destruct (ContentValidation.strip W (text l)) eqn:Hs; [reflexivity|].
    cbn [List.map]. unfold Facts.line_entry at 2. rewrite Hs.
    now rewrite <- app_assoc.
Qed.

(** Keys, and the cells of a row, after [setdefault_empty]. *)
Lemma setdefault_empty_keys (rs : rows) (r q : Z) :
  In q (List.map fst (setdefault_empty rs r))
  <-> In q (List.map fst rs) \/ q = r.
Proof.
  induction rs as [|[r' cells] rs IH]; cbn [setdefault_empty List.map fst In].
  - intuition.
  - destruct (Z.eqb_spec r' r) as [->|Hne]; cbn [List.map fst In].
    + intuition.
    + rewrite IH. intuition.
Qed.

Lemma setdefault_empty_NoDup (rs : rows) (r : Z) :
  NoDup (List.map fst rs) -> NoDup (List.map fst (setdefault_empty rs r)).
Proof.
  induction rs as [|[r' cells] rs IH]; cbn [setdefault_empty List.map fst].
  - intros _. repeat constructor. intros [].
  - intros Hnd. inversion Hnd as [|? ? Hnotin Hnd']; subst.
    destruct (Z.eqb_spec r' r) as [->|Hne]; [exact Hnd|].
    cbn [List.map fst]. constructor; [|now apply IH].
    rewrite setdefault_empty_keys. intros [H | ->]; [now apply Hnotin | congruence].
Qed.

Lemma setdefault_empty_row_cells (rs : rows) (r q : Z) :
  row_cells (setdefault_empty rs r) q = row_cells rs q.
Proof.
  unfold row_cells.
  induction rs as [|[r' cells] rs IH]; cbn [setdefault_empty List.find fst].
  - destruct (r =? q)%Z; reflexivity.
  - destruct (Z.eqb_spec r' r) as [->|Hne]; [reflexivity|].
    cbn [List.find fst]. destruct (r' =? q)%Z; [reflexivity|exact IH].
Qed.

(** [append_cell] on a key that is there. *)
Lemma append_cell_present (rs : rows) (r : Z) (t : str) :
  In r (List.map fst rs) ->
  exists rs',
    append_cell rs r t = Ok rs'
    /\ List.map fst rs' = List.map fst rs
    /\ forall q, row_cells rs' q
                 = if (q =? r)%Z then row_cells rs q ++ [t] else row_cells rs q.
Proof.
  unfold row_cells.
  induction rs as [|[r' cells] rs IH]; cbn [List.map fst In append_cell];
    [intros []|].
  intros Hin. destruct (Z.eqb_spec r' r) as [->|Hne].
  - eexists. split; [reflexivity|]. split; [reflexivity|].
    intros q. cbn [List.find fst].
    rewrite (Z.eqb_sym q r). destruct (r =? q)%Z; reflexivity.
  - destruct Hin as [Heq|Hin]; [congruence|].
    destruct (IH Hin) as (rs' & -> & Hkeys & Hcells).
    cbn [Py.bind]. eexists. split; [reflexivity|].
    split; [cbn [List.map fst]; now rewrite Hkeys|].
    intros q. cbn [List.find fst].
    destruct (Z.eqb_spec r' q) as [->|Hq]; [|apply Hcells].
    destruct (Z.eqb_spec q r); [congruence|reflexivity].
Qed.

(** The loop over the cells of a table in which every cell is read. *)
Lemma collect_rows_recognised (cells : list (Z * list str)) :
  forall rs : rows,
    NoDup (List.map fst rs) ->
    exists rs',
      collect_rows W rs (List.map Facts.recognised cells) = Ok rs'
      /\ NoDup (List.map fst rs')
      /\ (forall q, In q (List.map fst rs')
                    <-> In q (List.map fst rs) \/ In q (List.map fst cells))
      /\ forall q, row_cells rs' q
                   = row_cells rs q ++ Facts.cells_of_row W cells q.
Proof.
  induction cells as [|[r lines] cells IH]; intros rs Hnd.
  - exists rs. split; [reflexivity|]. split; [exact Hnd|].
    split; [cbn; intuition|]. intros q. cbn. now rewrite app_nil_r.
  - destruct (append_cell_present
                (setdefault_empty rs r) r (Facts.printed_cell W lines))
      as (rs2 & Happ & Hkeys & Hcells).
    { rewrite setdefault_empty_keys. now right. }
    destruct (IH rs2) as (rs' & Hrun & Hnd' & Hin' & Hcells').
    { rewrite Hkeys. now apply setdefault_empty_NoDup. }
    exists rs'. split; [|split; [exact Hnd'|split]].
    + change (collect_rows W rs
                (List.map Facts.recognised ((r, lines) :: cells)))
        with (rs0 <- append_cell (setdefault_empty rs r) r
                                 (Facts.printed_cell W lines) ;;
              collect_rows W rs0 (List.map Facts.recognised cells)).
      rewrite Happ. cbn [Py.bind]. exact Hrun.
    + intros q. rewrite Hin', Hkeys, setdefault_empty_keys.
      cbn [List.map fst In]. intuition.
    + intros q. rewrite Hcells', Hcells, setdefault_empty_row_cells.
      unfold Facts.cells_of_row. cbn [List.filter fst].
      rewrite (Z.eqb_sym q r).
      destruct (r =? q)%Z; cbn [List.map snd]; [|reflexivity].
      now rewrite <- app_assoc.
Qed.

Lemma insert_key_perm (r : Z) (l : list Z) :
  Permutation (insert_key r l) (r :: l).
Proof.
  induction l as [|q l IH]; simpl; [reflexivity|].
  destruct (r <=? q)%Z; [reflexivity|].
  rewrite IH. apply perm_swap.
Qed.

Lemma sorted_keys_perm (rs : rows) :
  Permutation (sorted_keys rs) (List.map fst rs).
Proof.
  unfold sorted_keys.
  induction (List.map fst rs) as [|r l IH]; simpl; [constructor|].
  rewrite insert_key_perm. now constructor.
Qed.

Lemma insert_key_Sorted (r : Z) (l : list Z) :
  Sorted Z.le l -> Sorted Z.le (insert_key r l).
Proof.
  induction 1 as [|q l Hs IH Hhd]; simpl.
  - repeat constructor.
  - destruct (Z.leb_spec r q) as [Hle|Hgt].
    + constructor; [constructor; assumption|]. now constructor.
    + constructor; [exact IH|].
      destruct Hhd as [|x l Hqx]; simpl.
      * constructor. lia.
      * destruct (r <=? x)%Z; constructor; [lia | exact Hqx].
Qed.

Lemma sorted_keys_StronglySorted (rs : rows) :
  StronglySorted Z.le (sorted_keys rs).
Proof.
  apply Sorted_StronglySorted; [intros a b c; apply Z.le_trans|].
  unfold sorted_keys.
  induction (List.map fst rs) as [|r l IH]; simpl; [constructor|].
  now apply insert_key_Sorted.
Qed.

Lemma table_lines_recognised (n_bboxes t_idx : nat)
      (cells : list (Z * list str)) :
  n_bboxes = 0 \/ t_idx < n_bboxes ->
  exists ids,
    table_lines W n_bboxes t_idx (List.map Facts.recognised cells)
    = Ok ([Facts.table_heading t_idx]
            ++ List.map (fun r => row_line (Facts.cells_of_row W cells r)) ids
            ++ [[]])
    /\ StronglySorted Z.le ids
    /\ NoDup ids
    /\ forall r, In r ids <-> In r (List.map fst cells).
Proof.
  intros Hidx. unfold table_lines.
  assert (Hok : (if Nat.eqb n_bboxes 0 then Ok tt
                 else if Nat.ltb t_idx n_bboxes then Ok tt
                 else Raise (Exception "list index out of range")) = Ok tt).
  { destruct Hidx as [-> | Hlt]; [reflexivity|].
    destruct (Nat.eqb n_bboxes 0); [reflexivity|].
    apply Nat.ltb_lt in Hlt. now rewrite Hlt. }
  rewrite Hok. cbn [Py.bind].
  destruct (collect_rows_recognised cells [])
    as (rs & -> & Hnd & Hin & Hcells); [constructor|].
  cbn [Py.bind]. exists (sorted_keys rs). split; [|split; [|split]].
  - unfold Facts.table_heading. do 2 f_equal. f_equal.
    apply map_ext. intros r. now rewrite Hcells.
  - apply sorted_keys_StronglySorted.
  - apply (Permutation_NoDup (Permutation_sym (sorted_keys_perm rs)) Hnd).
  - intros r. split; intros H.
    + apply (Permutation_in _ (sorted_keys_perm rs)) in H.
      apply Hin in H. destruct H as [[] | H]. exact H.
    + apply (Permutation_in _ (Permutation_sym (sorted_keys_perm rs))).
      apply Hin. now right.
Qed.

End OcrFacts.


(** X16.  For a table all of whose cells are read, the markdown has,
    after the heading "## Table 1", one line per row id of the table, the
    row ids ascending and each once, whatever the order of the cells; the
    line of a row holds the cells of that row in the order of the table,
    a cell that reads blank being printed as one space; an empty line
    ends the table. *)
Theorem table_rows_grouped_and_sorted :
  forall (W : World) (text_lines : list OcrMarkdown.TextLine)
         (cells : list (Z * list str)) (n_bboxes : nat),
    exists ids,
      OcrMarkdown.ocr_to_markdown
        W text_lines [List.map Facts.recognised cells] n_bboxes
      = Ok (Str.join ContentValidation.nl
              ((("## Text Lines" ++ ContentValidation.nl)
                  :: List.map (Facts.line_entry W)
                              (List.filter (Facts.kept_line W) text_lines))
                 ++ [Facts.table_heading 0]
                 ++ List.map
                      (fun r =>
                         OcrMarkdown.row_line (Facts.cells_of_row W cells r))
                      ids
                 ++ [[]]))
      /\ StronglySorted Z.le ids
      /\ NoDup ids
      /\ forall r, In r ids <-> In r (List.map fst cells).
Proof.
  intros W text_lines cells n_bboxes.
  destruct (table_lines_recognised W n_bboxes 0 cells)
    as (ids & Hlines & Hsorted & Hnd & Hin).
  { destruct n_bboxes; [now left | right; lia]. }
  exists ids. split; [|repeat split; auto; apply Hin].
  unfold OcrMarkdown.ocr_to_markdown. rewrite text_entries_filter.
  cbn [OcrMarkdown.tables_lines]. rewrite Hlines. reflexivity.
Qed.

Section OcrFailure.

Import OcrMarkdown.
Variable W : World.

Lemma collect_rows_app (a b : list TableCell) :
  forall rs : rows,
    collect_rows W rs (a ++ b)
    = (rs' <- collect_rows W rs a ;; collect_rows W rs' b).
Proof.
  induction a as [|c a IH]; intros rs; cbn [app collect_rows];
    [reflexivity|].
  destruct (cell_text_lines c); [|reflexivity]. cbn [Py.bind].
  destruct (append_cell _ _ _); [|reflexivity]. cbn [Py.bind]. apply IH.
Qed.

Lemma tables_lines_recognised (n_bboxes : nat)
      (good : list (list (Z * list str))) (rest : list TableResult) :
  forall (t_idx : nat) (acc : list str),
    n_bboxes = 0 \/ t_idx + List.length good <= n_bboxes ->
    exists acc',
      tables_lines W n_bboxes t_idx acc
                   (List.map (List.map Facts.recognised) good ++ rest)
      = tables_lines W n_bboxes (t_idx + List.length good) acc' rest.
Proof.
  induction good as [|cells good IH]; intros t_idx acc Hidx.
  - exists acc. cbn. now rewrite Nat.add_0_r.
  - cbn [List.map app tables_lines List.length] in *.
    destruct (table_lines_recognised W n_bboxes t_idx cells)
      as (ids & -> & _); [lia|].
    cbn [Py.bind].
    destruct (IH (S t_idx) (acc ++
                   [Facts.table_heading t_idx] ++
                   List.map (fun r => row_line (Facts.cells_of_row W cells r))
                            ids ++ [[]])) as (acc' & ->); [lia|].
    exists acc'. f_equal. lia.
Qed.

End OcrFailure.

(** X17.  When the reading of a cell raises, [ocr_to_markdown] raises
    that exception and returns no markdown at all: the tables before it
    and the cells before it in its table, all read, do not count. *)
Theorem cell_failure_aborts_markdown :
  forall (W : World) (text_lines : list OcrMarkdown.TextLine)
         (good : list (list (Z * list str))) (before : list (Z * list str))
         (r : Z) (e : exn) (after : list OcrMarkdown.TableCell)
         (rest : list OcrMarkdown.TableResult) (n_bboxes : nat),
    n_bboxes = 0 \/ List.length good < n_bboxes ->
    OcrMarkdown.ocr_to_markdown W text_lines
      (List.map (List.map Facts.recognised) good
         ++ (List.map Facts.recognised before
               ++ {| OcrMarkdown.row_id := r;
                     OcrMarkdown.cell_text_lines := Raise e |} :: after)
         :: rest)
      n_bboxes
    = Raise e.
Proof.
  intros W text_lines good before r e after rest n_bboxes Hidx.
  unfold OcrMarkdown.ocr_to_markdown.
  match goal with
  | |- context [OcrMarkdown.tables_lines W n_bboxes 0 ?acc (_ ++ ?tl)] =>
      destruct (tables_lines_recognised W n_bboxes good tl 0 acc)
        as (acc' & ->); [lia|]
  end.
  cbn [OcrMarkdown.tables_lines Nat.add].
  unfold OcrMarkdown.table_lines.
  assert (Hok : (if Nat.eqb n_bboxes 0 then Ok tt
                 else if Nat.ltb (List.length good) n_bboxes then Ok tt
                 else Raise (Exception "list index out of range")) = Ok tt).
  { destruct Hidx as [-> | Hlt]; [reflexivity|].
    destruct (Nat.eqb n_bboxes 0); [reflexivity|].
    apply Nat.ltb_lt in Hlt. now rewrite Hlt. }
  rewrite Hok. cbn [Py.bind].
  rewrite collect_rows_app.
  destruct (collect_rows_recognised W before []) as (rs & -> & _);
    [constructor|].
  reflexivity.
Qed.

Lemma cell_failure_aborts_markdown_witness :
  OcrMarkdown.ocr_to_markdown Sample.world
    [{| OcrMarkdown.text := " Red Crescent "; OcrMarkdown.bbox := "[0, 0, 9, 9]" |}]
    (List.map (List.map Facts.recognised) [[(0%Z, ["Name"]); (0%Z, ["Age"])]]
       ++ (List.map Facts.recognised [(1%Z, ["Ali"])]
             ++ {| OcrMarkdown.row_id := 1%Z;
                   OcrMarkdown.cell_text_lines :=
                     Raise (Exception "tile cannot extend outside image") |}
             :: [])
       :: [])
    2
  = Raise (Exception "tile cannot extend outside image").
Proof.
  apply (cell_failure_aborts_markdown
           Sample.world _ [[(0%Z, ["Name"]); (0%Z, ["Age"])]]
           [(1%Z, ["Ali"])] 1%Z).
  right. simpl. lia.
Defined.

(** A page with one kept line, one blank line, and a table whose cells
    come out of order. *)
Example sample_page_markdown :
  OcrMarkdown.ocr_to_markdown Sample.world
    [{| OcrMarkdown.text := " Red Crescent "; OcrMarkdown.bbox := "[0, 0, 9, 9]" |};
     {| OcrMarkdown.text := "   "; OcrMarkdown.bbox := "[0, 9, 9, 18]" |}]
    [List.map Facts.recognised
       [(1%Z, ["Ali"]); (0%Z, ["Name"]); (1%Z, [" "]); (0%Z, ["Age"; "(years)"])]]
    1
  = Ok (Str.join ContentValidation.nl
          ["## Text Lines" ++ ContentValidation.nl;
           "- Red Crescent  (bbox=[0, 0, 9, 9])";
           ContentValidation.nl ++ "## Table 1" ++ ContentValidation.nl;
           "| Name | Age (years) |";
           "| Ali |   |";
           []]).
Proof. vm_compute. reflexivity. Qed.

(** ** The calendar pass when nothing converts *)

(** X18.  When, in a text, the conversion of every match raises, the pass
    returns the text unchanged and does not raise: each failure is passed
    over and the loop goes on to the next match. *)
Theorem failed_conversions_leave_text :
  forall (W : World) (text : str),
    (forall g,
        In g (Re.findall (ContentValidation.hijri_date_pattern W) text) ->
        exists e, ContentValidation.gregorian_of_match W g = Raise e) ->
    ContentValidation.convert_hijri_to_gregorian W text = text.
Proof.
  intros W text Hfail. now apply normalisation_without_conversion.
Qed.

(** Both dates of this text are matched; the sample converter knows
    neither. *)
Lemma failed_conversions_leave_text_witness :
  ContentValidation.convert_hijri_to_gregorian
    Sample.world "31/13/9999 هـ, 1/1/1445"
  = "31/13/9999 هـ, 1/1/1445".
Proof.
  apply failed_conversions_leave_text.
  intros g Hin. vm_compute in Hin.
  destruct Hin as [<- | [<- | []]]; eexists; vm_compute; reflexivity.
Defined.
